(** * python-kucoin: the request signer, the request executor and the
      endpoint builders of [kucoin/client.py]

    A shallow embedding of the [Client] class.  Python values are modelled by
    small inductive types, dictionaries by insertion-ordered association
    lists, and the effects of a call (reading the clock, drawing a uuid,
    dispatching an HTTP call, raising an exception) by a state-and-exception
    monad over an explicit [World].

    Text is modelled by [string], holding the UTF-8 bytes of a Python [str];
    [.encode('utf-8')] is then the passage from [string] to [list byte].
    Dictionaries iterate in insertion order, as Python's do since 3.7.
    Floating-point values are left out: amounts and prices travel as text or
    integers, and the clock is read in whole microseconds.

    [hashlib], [hmac] and [base64] are modelled down to the bytes, so that a
    signature can be evaluated; [compact_json_dict] and [flat_uuid] live in
    [kucoin/utils.py] and the exception classes in [kucoin/exceptions.py],
    neither of which is among the sources read here. *)

From Stdlib Require Import ZArith List String Ascii Bool Lia DecimalString.
From Stdlib Require Import Strings.Byte.
Import ListNotations.
Open Scope list_scope.
Open Scope Z_scope.

(** ** Bytes *)

Definition bytes := list byte.

Definition Z_of_byte (b : byte) : Z := Z.of_N (Byte.to_N b).

Definition byte_of_Z (z : Z) : byte :=
  match Byte.of_N (Z.to_N (z mod 256)) with
  | Some b => b
  | None => x00
  end.

(** [s.encode('utf-8')] *)
Definition encode_utf8 (s : string) : bytes := list_byte_of_string s.

(** ** hashlib.sha256 (FIPS 180-4), on 32-bit words held in [Z] *)

Module Sha256.

Definition w32 (x : Z) : Z := x mod 2 ^ 32.
Definition add32 (x y : Z) : Z := w32 (x + y).
Definition not32 (x : Z) : Z := Z.lxor x (2 ^ 32 - 1).
Definition rotr (n x : Z) : Z :=
  Z.lor (Z.shiftr x n) (w32 (Z.shiftl x (32 - n))).

Definition Ch (x y z : Z) : Z := Z.lxor (Z.land x y) (Z.land (not32 x) z).
Definition Maj (x y z : Z) : Z :=
  Z.lxor (Z.lxor (Z.land x y) (Z.land x z)) (Z.land y z).
Definition bsig0 (x : Z) := Z.lxor (Z.lxor (rotr 2 x) (rotr 13 x)) (rotr 22 x).
Definition bsig1 (x : Z) := Z.lxor (Z.lxor (rotr 6 x) (rotr 11 x)) (rotr 25 x).
Definition ssig0 (x : Z) := Z.lxor (Z.lxor (rotr 7 x) (rotr 18 x)) (Z.shiftr x 3).
Definition ssig1 (x : Z) := Z.lxor (Z.lxor (rotr 17 x) (rotr 19 x)) (Z.shiftr x 10).

(** The round constants and the initial state are the leading 32 fractional
    bits of the cube roots, resp. square roots, of the first primes. *)
Definition primes64 : list Z :=
  [2; 3; 5; 7; 11; 13; 17; 19; 23; 29; 31; 37; 41; 43; 47; 53;
   59; 61; 67; 71; 73; 79; 83; 89; 97; 101; 103; 107; 109; 113; 127; 131;
   137; 139; 149; 151; 157; 163; 167; 173; 179; 181; 191; 193; 197; 199;
   211; 223; 227; 229; 233; 239; 241; 251; 257; 263; 269; 271; 277; 281;
   283; 293; 307; 311].

(** Integer cube root of [n], searched bit by bit below [2 ^ bits]. *)
Fixpoint icbrt_bits (bits : nat) (n r : Z) : Z :=
  match bits with
  | O => r
  | S b =>
      let c := r + 2 ^ Z.of_nat b in
      icbrt_bits b n (if c * c * c <=? n then c else r)
  end.

Definition frac_cbrt32 (p : Z) : Z := w32 (icbrt_bits 36 (p * 2 ^ 96) 0).
Definition frac_sqrt32 (p : Z) : Z := w32 (Z.sqrt (p * 2 ^ 64)).

Definition K : list Z := Eval vm_compute in map frac_cbrt32 primes64.
Definition H0 : list Z := Eval vm_compute in map frac_sqrt32 (firstn 8 primes64).

(** Padding: a 1 bit, zeros, and the bit List.length on 64 bits, big endian. *)
Fixpoint be_bytes (n : nat) (z : Z) : bytes :=
  match n with
  | O => []
  | S k => byte_of_Z (Z.shiftr z (8 * Z.of_nat k)) :: be_bytes k z
  end.

Definition pad (msg : bytes) : bytes :=
  let len := Z.of_nat (List.length msg) in
  let zeros := Z.to_nat ((55 - len) mod 64) in
  msg ++ byte_of_Z 128 :: repeat x00 zeros ++ be_bytes 8 (8 * len).

Fixpoint be_word (bs : bytes) (acc : Z) : Z :=
  match bs with
  | [] => acc
  | b :: r => be_word r (acc * 256 + Z_of_byte b)
  end.

(** Cut a byte string into big-endian 32-bit words. *)
Fixpoint words_of (fuel : nat) (bs : bytes) : list Z :=
  match fuel, bs with
  | S f, b0 :: b1 :: b2 :: b3 :: r => be_word [b0; b1; b2; b3] 0 :: words_of f r
  | _, _ => []
  end.

Fixpoint chunks16 (fuel : nat) (ws : list Z) : list (list Z) :=
  match fuel, ws with
  | _, [] => []
  | O, _ => []
  | S f, _ => firstn 16 ws :: chunks16 f (skipn 16 ws)
  end.

(** Message schedule: the sixteen words of the block, extended to 64. *)
Fixpoint schedule (n : nat) (W : list Z) : list Z :=
  match n with
  | O => W
  | S k =>
      let t := List.length W in
      let at_ i := nth (t - i) W 0 in
      schedule k
        (W ++ [add32 (add32 (ssig1 (at_ 2%nat)) (at_ 7%nat))
                     (add32 (ssig0 (at_ 15%nat)) (at_ 16%nat))])
  end.

Definition state := (Z * Z * Z * Z * Z * Z * Z * Z)%type.

Definition round (s : state) (kw : Z * Z) : state :=
  let '(a, b, c, d, e, f, g, h) := s in
  let '(k, w) := kw in
  let t1 := add32 (add32 (add32 h (bsig1 e)) (add32 (Ch e f g) k)) w in
  let t2 := add32 (bsig0 a) (Maj a b c) in
  (add32 t1 t2, a, b, c, add32 d t1, e, f, g).

Definition compress (s : state) (block : list Z) : state :=
  let '(a, b, c, d, e, f, g, h) := s in
  let '(a', b', c', d', e', f', g', h') :=
    fold_left round (combine K (schedule 48 block)) s in
  (add32 a a', add32 b b', add32 c c', add32 d d',
   add32 e e', add32 f f', add32 g g', add32 h h').

Definition init : state :=
  match H0 with
  | [a; b; c; d; e; f; g; h] => (a, b, c, d, e, f, g, h)
  | _ => (0, 0, 0, 0, 0, 0, 0, 0)
  end.

Definition digest (msg : bytes) : bytes :=
  let p := pad msg in
  let ws := words_of (List.length p) p in
  let '(a, b, c, d, e, f, g, h) :=
    fold_left compress (chunks16 (List.length ws) ws) init in
  flat_map (be_bytes 4) [a; b; c; d; e; f; g; h].

End Sha256.

(** ** hmac.new(key, msg, hashlib.sha256).digest() (RFC 2104) *)

Module Hmac.

Definition block_size : nat := 64.

Definition xor_with (c : Z) (bs : bytes) : bytes :=
  map (fun b => byte_of_Z (Z.lxor (Z_of_byte b) c)) bs.

Definition block_key (key : bytes) : bytes :=
  let k := if (List.length key <=? block_size)%nat then key else Sha256.digest key in
  k ++ repeat x00 (block_size - List.length k).

Definition sha256_digest (key msg : bytes) : bytes :=
  let k := block_key key in
  Sha256.digest (xor_with 92 k ++ Sha256.digest (xor_with 54 k ++ msg)).

End Hmac.

(** ** base64.b64encode (RFC 4648, standard alphabet, padded) *)

Module Base64.

Definition alphabet : bytes :=
  list_byte_of_string
    "ABCDEFGHIJKLMNOPQRSTUVWXYZabcdefghijklmnopqrstuvwxyz0123456789+/".

Definition sextet (z : Z) : byte := nth (Z.to_nat (z mod 64)) alphabet x00.

Definition pad_char : byte := byte_of_Z 61.

Fixpoint b64encode (bs : bytes) : bytes :=
  match bs with
  | [] => []
  | [a] =>
      let n := Z_of_byte a * 16 in
      [sextet (Z.shiftr n 6); sextet n; pad_char; pad_char]
  | [a; b] =>
      let n := (Z_of_byte a * 256 + Z_of_byte b) * 4 in
      [sextet (Z.shiftr n 12); sextet (Z.shiftr n 6); sextet n; pad_char]
  | a :: b :: c :: r =>
      let n := (Z_of_byte a * 256 + Z_of_byte b) * 256 + Z_of_byte c in
      sextet (Z.shiftr n 18) :: sextet (Z.shiftr n 12)
        :: sextet (Z.shiftr n 6) :: sextet n :: b64encode r
  end.

End Base64.

Open Scope string_scope.
Open Scope Z_scope.

(** ** Python values

    The values that the endpoint functions receive as arguments and store in
    the request data: [None], booleans, integers and text.  (Floating-point
    arguments are outside the model.) *)

Inductive pyval : Type :=
| PNone
| PBool (b : bool)
| PInt (z : Z)
| PStr (s : string).

(** Truth value of [v] in [if v:], [not v], [a and b]. *)
Definition truthy (v : pyval) : bool :=
  match v with
  | PNone => false
  | PBool b => b
  | PInt z => negb (z =? 0)
  | PStr s => negb (String.eqb s EmptyString)
  end.

(** [str(z)] for an integer. *)
Definition str_of_Z (z : Z) : string := NilZero.string_of_int (Z.to_int z).

(** [str(v)], which is what ["{}".format(v)] inserts. *)
Definition py_str (v : pyval) : string :=
  match v with
  | PNone => "None"
  | PBool true => "True"
  | PBool false => "False"
  | PInt z => str_of_Z z
  | PStr s => s
  end.

(** [v == s] for a string constant [s]. *)
Definition eq_str (v : pyval) (s : string) : bool :=
  match v with
  | PStr s' => String.eqb s' s
  | _ => false
  end.

(** [s.upper()], on the ASCII letters. *)
Definition upper_ascii (c : ascii) : ascii :=
  let n := nat_of_ascii c in
  if ((97 <=? n) && (n <=? 122))%nat then ascii_of_nat (n - 32) else c.

Fixpoint upper (s : string) : string :=
  match s with
  | EmptyString => EmptyString
  | String c r => String (upper_ascii c) (upper r)
  end.

(** ** Dictionaries: association lists in insertion order *)

Definition pydict (V : Type) : Type := list (string * V).

Section Dict.
Context {V : Type}.

(** [d.get(k)] *)
Fixpoint dict_get (k : string) (d : pydict V) : option V :=
  match d with
  | [] => None
  | (k', v) :: r => if String.eqb k' k then Some v else dict_get k r
  end.

(** [d[k] = v]: an existing key keeps its position, a new key goes last. *)
Fixpoint dict_set (k : string) (v : V) (d : pydict V) : pydict V :=
  match d with
  | [] => [(k, v)]
  | (k', v') :: r =>
      if String.eqb k' k then (k, v) :: r else (k', v') :: dict_set k v r
  end.

(** [d.update(e)] *)
Definition dict_update (d e : pydict V) : pydict V :=
  fold_left (fun acc kv => dict_set (fst kv) (snd kv) acc) e d.

(** [k in d] *)
Definition dict_mem (k : string) (d : pydict V) : bool :=
  match dict_get k d with Some _ => true | None => false end.

(** The keys, in iteration order. *)
Definition dict_keys (d : pydict V) : list string := map fst d.

(** [bool(d)] *)
Definition nonempty (d : pydict V) : bool :=
  match d with [] => false | _ => true end.

(** A well-formed dictionary holds each key once. *)
Definition wf_dict (d : pydict V) : Prop := NoDup (dict_keys d).
End Dict.

Definition dict := pydict pyval.

(** [d[k]] for a key that iteration over [d] produced. *)
Definition dict_item (d : dict) (k : string) : pyval :=
  match dict_get k d with
  | Some v => v
  | None => PNone
  end.

(** ** Compact JSON *)

Definition dquote : ascii := "034"%char.

Definition hex_digit (n : nat) : ascii :=
  nth n (list_ascii_of_string "0123456789abcdef") "0"%char.

(** The escape of one character inside a JSON string literal. *)
Definition json_escape_char (c : ascii) : string :=
  let n := nat_of_ascii c in
  if (n =? 34)%nat then String "\" (String dquote EmptyString)
  else if (n =? 92)%nat then "\\"
  else if (n =? 10)%nat then "\n"
  else if (n =? 13)%nat then "\r"
  else if (n =? 9)%nat then "\t"
  else if (n =? 8)%nat then "\b"
  else if (n =? 12)%nat then "\f"
  else if (n <? 32)%nat then
    "\u00" ++ String (hex_digit (n / 16)) (String (hex_digit (n mod 16)) EmptyString)
  else String c EmptyString.

Fixpoint json_escape (s : string) : string :=
  match s with
  | EmptyString => EmptyString
  | String c r => json_escape_char c ++ json_escape r
  end.

Definition json_string (s : string) : string :=
  String dquote (json_escape s ++ String dquote EmptyString).

Definition json_of_pyval (v : pyval) : string :=
  match v with
  | PNone => "null"
  | PBool true => "true"
  | PBool false => "false"
  | PInt z => str_of_Z z
  | PStr s => json_string s
  end.

(** Modelled from the spec: [compact_json_dict] of [kucoin/utils.py], which
    is not among the sources.  The spec has it serialize the mapping "as a
    minified JSON object (no extraneous whitespace, stable key order as
    provided)": members in iteration order, separated by [","], key and value
    by [":"]. *)
Definition compact_json_dict (data : dict) : string :=
  "{" ++ String.concat ","
           (map (fun kv => json_string (fst kv) ++ ":" ++ json_of_pyval (snd kv)) data)
      ++ "}".

(** ** Decoded JSON (what [response.json()] returns)

    Numbers are the integers; an object is the dictionary it decodes to. *)

#[local] Set Warnings "-register-all".

Inductive json : Type :=
| JNull
| JBool (b : bool)
| JNum (z : Z)
| JStr (s : string)
| JArr (l : list json)
| JObj (o : list (string * json)).

(** Truth value of a decoded JSON value. *)
Definition json_truthy (v : json) : bool :=
  match v with
  | JNull => false
  | JBool b => b
  | JNum z => negb (z =? 0)
  | JStr s => negb (String.eqb s EmptyString)
  | JArr l => match l with [] => false | _ => true end
  | JObj o => match o with [] => false | _ => true end
  end.

(** [v == s] for a string constant [s]. *)
Definition json_eq_str (v : json) (s : string) : bool :=
  match v with
  | JStr s' => String.eqb s' s
  | _ => false
  end.

(** [sub in s] on text. *)
Definition is_substring (sub s : string) : bool :=
  match index 0 sub s with Some _ => true | None => false end.

(** ** Responses and exceptions *)

(** A [requests] response: [json_body] holds what [response.json()] returns, and
    [None] when it raises [ValueError] (the body is not JSON). *)
Record response : Type := mk_response {
  status_code : Z;
  text : string;
  json_body : option json
}.

Inductive exn : Type :=
| KucoinAPIException (r : response)
| KucoinRequestException (msg : string)
| MarketOrderException (msg : string)
| LimitOrderException (msg : string)
| TypeError (msg : string)
| KeyError (key : string)
| RequestsError (msg : string).

Inductive outcome (A : Type) : Type :=
| Return (a : A)
| Raise (e : exn).
Arguments Return {A} a.
Arguments Raise {A} e.

Definition obind {A B} (o : outcome A) (f : A -> outcome B) : outcome B :=
  match o with
  | Return a => f a
  | Raise e => Raise e
  end.

(** [type(res).__name__] *)
Definition type_name (res : json) : string :=
  match res with
  | JNull => "NoneType"
  | JBool _ => "bool"
  | JNum _ => "int"
  | JStr _ => "str"
  | JArr _ => "list"
  | JObj _ => "dict"
  end.

(** [key in res]; the text of the [TypeError] names the type of [res]. *)
Definition json_contains (key : string) (res : json) : outcome bool :=
  match res with
  | JObj o => Return (dict_mem key o)
  | JArr l => Return (existsb (fun x => json_eq_str x key) l)
  | JStr s => Return (is_substring key s)
  | _ => Raise (TypeError ("argument of type '" ++ type_name res ++ "' is not iterable"))
  end.

(** [res[key]] for a string [key] *)
Definition json_getitem (res : json) (key : string) : outcome json :=
  match res with
  | JObj o =>
      match dict_get key o with
      | Some v => Return v
      | None => Raise (KeyError key)
      end
  | JArr _ => Raise (TypeError "list indices must be integers or slices, not str")
  | JStr _ => Raise (TypeError "string indices must be integers")
  | _ => Raise (TypeError ("'" ++ type_name res ++ "' object is not subscriptable"))
  end.

(** [_handle_response] *)
Definition _handle_response (response : response) : outcome json :=
  if negb (prefix "2" (str_of_Z (status_code response))) then
    Raise (KucoinAPIException response)
  else
    match json_body response with
    | None => Raise (KucoinRequestException ("Invalid Response: " ++ text response))
    | Some res =>
        obind (json_contains "code" res) (fun has_code =>
        obind (if has_code
               then obind (json_getitem res "code")
                      (fun c => Return (negb (json_eq_str c "200000")))
               else Return false) (fun bad_code =>
        if bad_code then Raise (KucoinAPIException response) else
        obind (json_contains "success" res) (fun has_success =>
        obind (if has_success
               then obind (json_getitem res "success")
                      (fun s => Return (negb (json_truthy s)))
               else Return false) (fun failed =>
        if failed then Raise (KucoinAPIException response) else
        obind (json_contains "data" res) (fun has_data =>
        if has_data then json_getitem res "data" else Return res)))))
    end.

(** ** Keyword arguments and HTTP calls *)

(** A header value: text, or the bytes that [b64encode] returns. *)
Inductive hval : Type :=
| HStr (s : string)
| HBytes (b : bytes).

Definition hdict := pydict hval.

(** The keyword arguments that [_request] collects ([**kwargs]); also the
    shape of [requests_params].  An absent key is [None]; [kw_extra] holds
    the other options of the requests library (verify, proxies, ...). *)
Record kwargs : Type := mk_kwargs {
  kw_timeout : option pyval;
  kw_data : option dict;
  kw_headers : option hdict;
  kw_params : option dict;
  kw_extra : dict
}.

Definition no_kwargs : kwargs := mk_kwargs None None None None [].

(** The call [f(path, signed, data=data)] passes one keyword. *)
Definition data_kwarg (data : dict) : kwargs := mk_kwargs None (Some data) None None [].

(** [bool(kw)]: a dictionary is true when it has a key. *)
Definition kwargs_nonempty (kw : kwargs) : bool :=
  match kw_timeout kw, kw_data kw, kw_headers kw, kw_params kw, kw_extra kw with
  | None, None, None, None, [] => false
  | _, _, _, _, _ => true
  end.

Definition or_else {A} (x y : option A) : option A :=
  match x with Some _ => x | None => y end.

(** [kw.update(rp)] *)
Definition kwargs_update (kw rp : kwargs) : kwargs :=
  {| kw_timeout := or_else (kw_timeout rp) (kw_timeout kw);
     kw_data := or_else (kw_data rp) (kw_data kw);
     kw_headers := or_else (kw_headers rp) (kw_headers kw);
     kw_params := or_else (kw_params rp) (kw_params kw);
     kw_extra := dict_update (kw_extra kw) (kw_extra rp) |}.

(** What is passed as [data=]: the mapping itself, or its JSON text. *)
Inductive payload : Type :=
| Form (d : dict)
| Body (s : string).

(** The call [getattr(self.session, method)(uri, **kwargs)]. *)
Record http_call : Type := mk_http_call {
  hc_method : string;
  hc_uri : string;
  hc_timeout : option pyval;
  hc_data : option payload;
  hc_headers : hdict;
  hc_params : option dict;
  hc_extra : dict
}.

(** What comes back from the session: a response, or an exception of the
    requests library (timeout, connection failure). *)
Inductive reply : Type :=
| Answer (r : response)
| Failure (msg : string).

(** ** The world of a call, and the monad of effects *)

(** [clock] gives the successive readings of the system clock, in
    microseconds since the epoch; [uuid_supply] the successive identifiers
    that [flat_uuid] produces; [server] the reply to the latest call, given
    all calls dispatched so far (oldest first); [sent] is that list. *)
Record World : Type := mk_World {
  clock : nat -> Z;
  clock_reads : nat;
  uuid_supply : nat -> string;
  uuid_draws : nat;
  server : list http_call -> reply;
  sent : list http_call
}.

Definition M (A : Type) : Type := World -> outcome A * World.

Definition ret {A} (a : A) : M A := fun w => (Return a, w).

Definition raise {A} (e : exn) : M A := fun w => (Raise e, w).

Definition bind {A B} (m : M A) (f : A -> M B) : M B :=
  fun w =>
    match m w with
    | (Return a, w') => f a w'
    | (Raise e, w') => (Raise e, w')
    end.

Definition lift {A} (o : outcome A) : M A := fun w => (o, w).

Notation "x <- m ;; k" := (bind m (fun x => k))
  (at level 61, m at next level, right associativity).

(** One reading of the system clock. *)
Definition read_clock : M Z :=
  fun w =>
    (Return (clock w (clock_reads w)),
     mk_World (clock w) (S (clock_reads w)) (uuid_supply w) (uuid_draws w)
              (server w) (sent w)).

(** [int(time.time() * 1000)] *)
Definition time_ms : M Z := t <- read_clock ;; ret (Z.quot t 1000).

(** [int(time.time())] *)
Definition time_s : M Z := t <- read_clock ;; ret (Z.quot t 1000000).

(** [calendar.timegm(datetime.utcnow().date().timetuple())]: the date drops
    the time of day, [timegm] gives the seconds at its midnight. *)
Definition utc_midnight : M Z :=
  t <- read_clock ;; ret (86400 * ((t / 1000000) / 86400)).

(** Modelled from the spec: [flat_uuid] of [kucoin/utils.py], which is not
    among the sources.  The spec has the calls "auto-generate a client order
    identifier": the next identifier of the world's supply. *)
Definition flat_uuid : M string :=
  fun w =>
    (Return (uuid_supply w (uuid_draws w)),
     mk_World (clock w) (clock_reads w) (uuid_supply w) (S (uuid_draws w))
              (server w) (sent w)).

(** The session performs the call: it joins [sent], and the server replies. *)
Definition session_call (call : http_call) : M response :=
  fun w =>
    let log := (sent w ++ [call])%list in
    let w' := mk_World (clock w) (clock_reads w) (uuid_supply w) (uuid_draws w)
                       (server w) log in
    match server w log with
    | Answer r => (Return r, w')
    | Failure msg => (Raise (RequestsError msg), w')
    end.

(** ** The client *)

Definition REST_API_URL := "https://openapi-v2.kucoin.com".
Definition SANDBOX_API_URL := "https://openapi-sandbox.kucoin.com".
Definition API_VERSION := "v1".

Definition ORDER_LIMIT := "limit".
Definition ORDER_MARKET := "market".
Definition TIMEINFORCE_GOOD_TILL_TIME := "GTT".

Record Client : Type := mk_Client {
  API_KEY : string;
  API_SECRET : string;
  API_PASSPHRASE : string;
  API_URL : string;
  _requests_params : option kwargs;
  session_headers : hdict
}.

(** [_init_session]: the headers of every call of the session. *)
Definition _init_session (api_key passphrase : string) : hdict :=
  [("Accept", HStr "application/json");
   ("User-Agent", HStr "python-kucoin");
   ("Content-Type", HStr "application/json");
   ("KC-API-KEY", HStr api_key);
   ("KC-API-PASSPHRASE", HStr passphrase)].

(** [Client.__init__] *)
Definition new_Client (api_key api_secret passphrase : string) (sandbox : bool)
    (requests_params : option kwargs) : Client :=
  {| API_KEY := api_key;
     API_SECRET := api_secret;
     API_PASSPHRASE := passphrase;
     API_URL := if sandbox then SANDBOX_API_URL else REST_API_URL;
     _requests_params := requests_params;
     session_headers := _init_session api_key passphrase |}.

(** ** The request signer *)

(** [_get_params_for_sig]: the comprehension walks the keys of [data] and
    looks each one up. *)
Definition _get_params_for_sig (data : dict) : string :=
  String.concat "&"
    (map (fun key => key ++ "=" ++ py_str (dict_item data key)) (dict_keys data)).

(** The locals [(endpoint, data_json)] of [_generate_signature] at the point
    where [sig_str] is formatted. *)
Definition sig_locals (method path : string) (data : dict) : string * string :=
  let data_json := EmptyString in
  let endpoint := path in
  if String.eqb method "get" then
    if nonempty data then
      let query_string := _get_params_for_sig data in
      (path ++ "?" ++ query_string, data_json)
    else (endpoint, data_json)
  else if nonempty data then (endpoint, compact_json_dict data)
  else (endpoint, data_json).

(** The local [sig_str], before it is encoded. *)
Definition sig_str (nonce : Z) (method path : string) (data : dict) : string :=
  let '(endpoint, data_json) := sig_locals method path data in
  str_of_Z nonce ++ upper method ++ endpoint ++ data_json.

(** [_generate_signature] *)
Definition _generate_signature (self : Client) (nonce : Z) (method path : string)
    (data : dict) : bytes :=
  let m := Hmac.sha256_digest (encode_utf8 (API_SECRET self))
                              (encode_utf8 (sig_str nonce method path data)) in
  Base64.b64encode m.

(** ** The request executor *)

Definition _create_path (self : Client) (path : string) : string :=
  "/api/" ++ API_VERSION ++ "/" ++ path.

Definition _create_uri (self : Client) (path : string) : string :=
  API_URL self ++ path.

(** The two headers of a signed call. *)
Definition sign_headers (self : Client) (nonce : Z) (method full_path : string)
    (data : dict) (headers : hdict) : hdict :=
  let headers := dict_set "KC-API-TIMESTAMP" (HStr (str_of_Z nonce)) headers in
  dict_set "KC-API-SIGN"
    (HBytes (_generate_signature self nonce method full_path data)) headers.

(** The keyword arguments after the first lines of [_request]: the default
    timeout, then the client's [requests_params] on top. *)
Definition merged_kwargs (self : Client) (kw : kwargs) : kwargs :=
  let kwargs :=
    mk_kwargs (Some (PInt 10)) (kw_data kw) (kw_headers kw)
              (kw_params kw) (kw_extra kw) in
  match _requests_params self with
  | Some rp => if kwargs_nonempty rp then kwargs_update kwargs rp else kwargs
  | None => kwargs
  end.

(** [kwargs.get('data', {})] after the merge. *)
Definition request_data (self : Client) (kwargs : kwargs) : dict :=
  match kw_data (merged_kwargs self kwargs) with
  | Some d => d
  | None => []
  end.

(** [_request]; [method] is the name of a method of the session ([get],
    [post], [put], [delete]), and the session's own headers
    ([session_headers]) are added by the session, not here. *)
Definition _request (self : Client) (method path : string) (signed : bool)
    (kwargs : kwargs) : M json :=
  let kwargs := merged_kwargs self kwargs in
  let data := match kw_data kwargs with Some d => d | None => [] end in
  let headers := match kw_headers kwargs with Some h => h | None => [] end in
  let full_path := _create_path self path in
  let uri := _create_uri self full_path in
  headers <- (if signed then
                nonce <- time_ms ;;
                ret (sign_headers self nonce method full_path data headers)
              else ret headers) ;;
  let is_get := String.eqb method "get" in
  let params := if nonempty data && is_get then Some data else kw_params kwargs in
  let sent_data :=
    if nonempty data && is_get then None
    else if signed && negb is_get && nonempty data
         then Some (Body (compact_json_dict data))
         else Some (Form data) in
  response <- session_call
                {| hc_method := method; hc_uri := uri;
                   hc_timeout := kw_timeout kwargs; hc_data := sent_data;
                   hc_headers := headers; hc_params := params;
                   hc_extra := kw_extra kwargs |} ;;
  lift (_handle_response response).

Definition _get (self : Client) (path : string) (signed : bool) (kwargs : kwargs) :=
  _request self "get" path signed kwargs.

Definition _post (self : Client) (path : string) (signed : bool) (kwargs : kwargs) :=
  _request self "post" path signed kwargs.

Definition _put (self : Client) (path : string) (signed : bool) (kwargs : kwargs) :=
  _request self "put" path signed kwargs.

Definition _delete (self : Client) (path : string) (signed : bool) (kwargs : kwargs) :=
  _request self "delete" path signed kwargs.

(** ** Endpoints *)

Definition get_accounts (self : Client) : M json :=
  _get self "accounts" true no_kwargs.

(** [create_inner_transfer]; [order_id] defaults to [None]. *)
Definition create_inner_transfer (self : Client)
    (from_account_id to_account_id amount order_id : pyval) : M json :=
  let data := [("payAccountId", from_account_id);
               ("recAccountId", to_account_id);
               ("amount", amount)] in
  data <- (if truthy order_id then ret (dict_set "clientOid" order_id data)
           else u <- flat_uuid ;; ret (dict_set "clientOid" (PStr u) data)) ;;
  _post self "accounts/inner-transfer" true (data_kwarg data).

(** [create_market_order]; [size], [funds], [client_oid], [remark] and [stp]
    default to [None]. *)
Definition create_market_order (self : Client)
    (symbol side size funds client_oid remark stp : pyval) : M json :=
  if negb (truthy size) && negb (truthy funds) then
    raise (MarketOrderException "Need size or fund parameter")
  else if truthy size && truthy funds then
    raise (MarketOrderException "Need size or fund parameter not both")
  else
    let data := [("side", side); ("symbol", symbol); ("type", PStr ORDER_MARKET)] in
    let data := if truthy size then dict_set "size" size data else data in
    let data := if truthy funds then dict_set "funds" funds data else data in
    data <- (if truthy client_oid then ret (dict_set "clientOid" client_oid data)
             else u <- flat_uuid ;; ret (dict_set "clientOid" (PStr u) data)) ;;
    let data := if truthy remark then dict_set "remark" remark data else data in
    let data := if truthy stp then dict_set "stp" stp data else data in
    _post self "orders" true (data_kwarg data).

(** [create_limit_order]; the arguments from [client_oid] on default to
    [None]. *)
Definition create_limit_order (self : Client)
    (symbol side price size client_oid remark time_in_force stop stop_price stp
     cancel_after post_only hidden iceberg visible_size : pyval) : M json :=
  if truthy stop && negb (truthy stop_price) then
    raise (LimitOrderException "Stop order needs stop_price")
  else if truthy stop_price && negb (truthy stop) then
    raise (LimitOrderException "Stop order type required with stop_price")
  else if truthy cancel_after
          && negb (eq_str time_in_force TIMEINFORCE_GOOD_TILL_TIME) then
    raise (LimitOrderException
             (String.concat (String dquote EmptyString)
                ["Cancel after only works with time_in_force = "; "GTT"; EmptyString]))
  else if truthy hidden && truthy iceberg then
    raise (LimitOrderException
             (String.concat (String dquote EmptyString)
                ["Order can be either "; "hidden"; " or "; "iceberg"; EmptyString]))
  else if truthy iceberg && negb (truthy visible_size) then
    raise (LimitOrderException "Iceberg order requires visible_size")
  else
    let data := [("symbol", symbol); ("side", side); ("type", PStr ORDER_LIMIT);
                 ("price", price); ("size", size)] in
    data <- (if truthy client_oid then ret (dict_set "clientOid" client_oid data)
             else u <- flat_uuid ;; ret (dict_set "clientOid" (PStr u) data)) ;;
    let data := if truthy remark then dict_set "remark" remark data else data in
    let data := if truthy stp then dict_set "stp" stp data else data in
    let data := if truthy time_in_force
                then dict_set "timeInForce" time_in_force data else data in
    let data := if truthy cancel_after
                then dict_set "cancelAfter" cancel_after data else data in
    let data := if truthy post_only then dict_set "postOnly" post_only data else data in
    let data := if truthy stop
                then dict_set "stopPrice" stop_price (dict_set "stop" stop data)
                else data in
    let data := if truthy hidden then dict_set "hidden" hidden data else data in
    let data := if truthy iceberg
                then dict_set "visible_size" visible_size
                       (dict_set "iceberg" iceberg data)
                else data in
    _post self "orders" true (data_kwarg data).

(** [symbol is not None] *)
Definition is_not_None (v : pyval) : bool :=
  match v with PNone => false | _ => true end.

(** [cancel_all_orders]; [symbol] defaults to [None]. *)
Definition cancel_all_orders (self : Client) (symbol : pyval) : M json :=
  let data := [] in
  let data := if is_not_None symbol then dict_set "symbol" symbol data else data in
  _delete self "orders" true (data_kwarg data).

(** [get_kline_data]; [kline_type] defaults to ['5min'], [start] and [end]
    to [None]. *)
Definition get_kline_data (self : Client) (symbol kline_type start end_ : pyval)
    : M json :=
  let data := [("symbol", symbol)] in
  let data := if is_not_None kline_type then dict_set "type" kline_type data else data in
  data <- (if is_not_None start then ret (dict_set "startAt" start data)
           else t <- utc_midnight ;; ret (dict_set "startAt" (PInt t) data)) ;;
  data <- (if is_not_None end_ then ret (dict_set "endAt" end_ data)
           else t <- time_s ;; ret (dict_set "endAt" (PInt t) data)) ;;
  _get self "market/candles" false (data_kwarg data).

(** ** The other endpoints

    Arguments that default to [None] in the source are ordinary arguments
    here; a call that leaves one out passes [PNone]. *)

Definition get_timestamp (self : Client) : M json :=
  _get self "timestamp" false no_kwargs.

Definition get_currencies (self : Client) : M json :=
  _get self "currencies" false no_kwargs.

Definition get_currency (self : Client) (currency : pyval) : M json :=
  _get self ("currencies/" ++ py_str currency) false no_kwargs.

Definition get_account (self : Client) (account_id : pyval) : M json :=
  _get self ("accounts/" ++ py_str account_id) true no_kwargs.

Definition create_account (self : Client) (account_type currency : pyval) : M json :=
  let data := [("type", account_type); ("currency", currency)] in
  _post self "accounts" true (data_kwarg data).

Definition get_account_activity (self : Client)
    (account_id start end_ page limit : pyval) : M json :=
  let data := [] in
  let data := if truthy start then dict_set "startAt" start data else data in
  let data := if truthy end_ then dict_set "endAt" end_ data else data in
  let data := if truthy page then dict_set "currentPage" page data else data in
  let data := if truthy limit then dict_set "pageSize" limit data else data in
  _get self ("accounts/" ++ py_str account_id ++ "/ledgers") true (data_kwarg data).

Definition get_account_holds (self : Client) (account_id page page_size : pyval)
    : M json :=
  let data := [] in
  let data := if truthy page then dict_set "currentPage" page data else data in
  let data := if truthy page_size then dict_set "pageSize" page_size data else data in
  _get self ("accounts/" ++ py_str account_id ++ "/holds") true (data_kwarg data).

Definition create_deposit_address (self : Client) (currency : pyval) : M json :=
  let data := [("currency", currency)] in
  _post self "deposit-addresses" true (data_kwarg data).

Definition get_deposit_address (self : Client) (currency : pyval) : M json :=
  let data := [("currency", currency)] in
  _get self "deposit-addresses" true (data_kwarg data).

Definition get_deposits (self : Client)
    (currency status start end_ page limit : pyval) : M json :=
  let data := [] in
  let data := if truthy currency then dict_set "currency" currency data else data in
  let data := if truthy status then dict_set "status" status data else data in
  let data := if truthy start then dict_set "startAt" start data else data in
  let data := if truthy end_ then dict_set "endAt" end_ data else data in
  let data := if truthy limit then dict_set "pageSize" limit data else data in
  let data := if truthy page then dict_set "page" page data else data in
  _get self "deposits" true (data_kwarg data).

Definition get_withdrawals (self : Client)
    (currency status start end_ page limit : pyval) : M json :=
  let data := [] in
  let data := if truthy currency then dict_set "currency" currency data else data in
  let data := if truthy status then dict_set "status" status data else data in
  let data := if truthy start then dict_set "startAt" start data else data in
  let data := if truthy end_ then dict_set "endAt" end_ data else data in
  let data := if truthy limit then dict_set "pageSize" limit data else data in
  let data := if truthy page then dict_set "page" page data else data in
  _get self "withdrawals" true (data_kwarg data).

Definition get_withdrawal_quotas (self : Client) (currency : pyval) : M json :=
  let data := [("currency", currency)] in
  _get self "withdrawals/quotas" true (data_kwarg data).

(** [create_withdrawal]; [is_inner] defaults to [False]. *)
Definition create_withdrawal (self : Client)
    (currency amount address memo is_inner remark : pyval) : M json :=
  let data := [("currency", currency); ("amount", amount); ("address", address)] in
  let data := if truthy memo then dict_set "memo" memo data else data in
  let data := if truthy is_inner then dict_set "isInner" is_inner data else data in
  let data := if truthy remark then dict_set "remark" remark data else data in
  _post self "withdrawals" true (data_kwarg data).

Definition cancel_withdrawal (self : Client) (withdrawal_id : pyval) : M json :=
  _delete self ("withdrawals/" ++ py_str withdrawal_id) true no_kwargs.

Definition cancel_order (self : Client) (order_id : pyval) : M json :=
  _delete self ("orders/" ++ py_str order_id) true no_kwargs.

Definition get_orders (self : Client)
    (symbol status side order_type start end_ page limit : pyval) : M json :=
  let data := [] in
  let data := if truthy symbol then dict_set "symbol" symbol data else data in
  let data := if truthy status then dict_set "status" status data else data in
  let data := if truthy side then dict_set "side" side data else data in
  let data := if truthy order_type then dict_set "type" order_type data else data in
  let data := if truthy start then dict_set "startAt" start data else data in
  let data := if truthy end_ then dict_set "endAt" end_ data else data in
  let data := if truthy page then dict_set "page" page data else data in
  let data := if truthy limit then dict_set "pageSize" limit data else data in
  _get self "orders" true (data_kwarg data).

Definition get_historical_orders (self : Client)
    (symbol side start end_ page limit : pyval) : M json :=
  let data := [] in
  let data := if truthy symbol then dict_set "symbol" symbol data else data in
  let data := if truthy side then dict_set "side" side data else data in
  let data := if truthy start then dict_set "startAt" start data else data in
  let data := if truthy end_ then dict_set "endAt" end_ data else data in
  let data := if truthy page then dict_set "page" page data else data in
  let data := if truthy limit then dict_set "pageSize" limit data else data in
  _get self "hist-orders" true (data_kwarg data).

Definition get_order (self : Client) (order_id : pyval) : M json :=
  _get self ("orders/" ++ py_str order_id) true no_kwargs.

Definition get_fills (self : Client)
    (order_id symbol side order_type start end_ page limit : pyval) : M json :=
  let data := [] in
  let data := if truthy order_id then dict_set "orderId" order_id data else data in
  let data := if truthy symbol then dict_set "symbol" symbol data else data in
  let data := if truthy side then dict_set "side" side data else data in
  let data := if truthy order_type then dict_set "type" order_type data else data in
  let data := if truthy start then dict_set "startAt" start data else data in
  let data := if truthy end_ then dict_set "endAt" end_ data else data in
  let data := if truthy page then dict_set "page" page data else data in
  let data := if truthy limit then dict_set "pageSize" limit data else data in
  _get self "fills" true (data_kwarg data).

Definition get_symbols (self : Client) : M json :=
  _get self "symbols" false no_kwargs.

(** [get_ticker]: the path and the data both turn on [symbol is not None]. *)
Definition get_ticker (self : Client) (symbol : pyval) : M json :=
  let data := [] in
  let tick_path := "market/allTickers" in
  let '(tick_path, data) :=
    if is_not_None symbol
    then ("market/orderbook/level1", [("symbol", symbol)])
    else (tick_path, data) in
  _get self tick_path false (data_kwarg data).

Definition get_fiat_prices (self : Client) (base symbol : pyval) : M json :=
  let data := [] in
  let data := if is_not_None base then dict_set "base" base data else data in
  let data := if is_not_None symbol then dict_set "currencies" symbol data else data in
  _get self "prices" false (data_kwarg data).

Definition get_24hr_stats (self : Client) (symbol : pyval) : M json :=
  let data := [("symbol", symbol)] in
  _get self "market/stats" false (data_kwarg data).

Definition get_markets (self : Client) : M json :=
  _get self "markets" false no_kwargs.

Definition get_order_book (self : Client) (symbol : pyval) : M json :=
  let data := [("symbol", symbol)] in
  _get self "market/orderbook/level2_100" false (data_kwarg data).

Definition get_full_order_book (self : Client) (symbol : pyval) : M json :=
  let data := [("symbol", symbol)] in
  _get self "market/orderbook/level2" false (data_kwarg data).

Definition get_full_order_book_level3 (self : Client) (symbol : pyval) : M json :=
  let data := [("symbol", symbol)] in
  _get self "market/orderbook/level3" false (data_kwarg data).

Definition get_trade_histories (self : Client) (symbol : pyval) : M json :=
  let data := [("symbol", symbol)] in
  _get self "market/histories" false (data_kwarg data).

Definition get_lending_orderbook (self : Client) (currency : pyval) : M json :=
  let data := [("currency", currency)] in
  _get self "margin/market" false (data_kwarg data).

Definition create_lending_order (self : Client)
    (currency size dailyIntRate term : pyval) : M json :=
  let data := [("currency", currency); ("size", size);
               ("dailyIntRate", dailyIntRate); ("term", term)] in
  _post self "margin/lend" true (data_kwarg data).

Definition get_lending_orders (self : Client) (currency : pyval) : M json :=
  let data := [("currency", currency)] in
  _get self "margin/lend/active" true (data_kwarg data).

Definition cancel_lend_order (self : Client) (orderId : pyval) : M json :=
  _delete self ("margin/lend/" ++ py_str orderId) true no_kwargs.

(** [get_ws_endpoint]; [private] defaults to [False], and is passed on as the
    [signed] flag. *)
Definition get_ws_endpoint (self : Client) (private : pyval) : M json :=
  let path := "bullet-public" in
  let signed := private in
  let path := if truthy private then "bullet-private" else path in
  _post self path (truthy signed) no_kwargs.

(** The items whose value is true for Python's [if], in their order. *)
Definition truthy_items (items : dict) : dict :=
  filter (fun kv => truthy (snd kv)) items.

(** The items whose value is not [None], in their order. *)
Definition not_None_items (items : dict) : dict :=
  filter (fun kv => is_not_None (snd kv)) items.

(** The [params] entry of the client's [requests_params], if there is one:
    what a call goes out with when it has no parameters of its own. *)
Definition default_params (self : Client) : option dict :=
  match _requests_params self with
  | Some rp => kw_params rp
  | None => None
  end.

(** The client's [requests_params] leave the [headers] keyword alone. *)
Definition no_headers_override (self : Client) : Prop :=
  match _requests_params self with
  | Some rp => kw_headers rp = None
  | None => True
  end.

(** ** A concrete world, for the examples *)

Definition demo_response : response :=
  mk_response 200 "{}" (Some (JObj [("code", JStr "200000"); ("data", JObj [("x", JNum 1)])])).

Definition demo_world : World :=
  {| clock := fun n => 1234567890000000 + Z.of_nat n;
     clock_reads := 0;
     uuid_supply := fun n => "uuid" ++ str_of_Z (Z.of_nat n);
     uuid_draws := 0;
     server := fun _ => Answer demo_response;
     sent := [] |}.

Definition demo_client : Client := new_Client "key" "s3cr3t" "pass" false None.


(** ** The contracts of the specification, in its own words *)

Module SignerSpec.

(** "serialize it as key1=value1&key2=value2&... in the iteration order of
    the mapping" *)
Definition query_string (data : dict) : string :=
  String.concat "&" (map (fun kv => fst kv ++ "=" ++ py_str (snd kv)) data).

(** Step 1, GET: the path with the query appended when there is data. *)
Definition endpoint (is_get : bool) (fullPath : string) (data : dict) : string :=
  if is_get then
    match data with
    | [] => fullPath
    | _ => fullPath ++ "?" ++ query_string data
    end
  else fullPath.

(** Step 1, otherwise: the minified JSON of the data, or nothing. *)
Definition body (is_get : bool) (data : dict) : string :=
  if is_get then EmptyString
  else match data with
       | [] => EmptyString
       | _ => compact_json_dict data
       end.

(** Step 2: timestamp, upper-cased method, endpoint, body, no separators. *)
Definition canonical (timestamp : Z) (method fullPath : string) (data : dict)
    : string :=
  let is_get := String.eqb method "get" in
  str_of_Z timestamp ++ upper method ++ endpoint is_get fullPath data
    ++ body is_get data.

(** Step 3: HMAC-SHA256 under the secret, then base64. *)
Definition sign (secret : string) (timestamp : Z) (method fullPath : string)
    (data : dict) : bytes :=
  Base64.b64encode
    (Hmac.sha256_digest (encode_utf8 secret)
                        (encode_utf8 (canonical timestamp method fullPath data))).

End SignerSpec.

Module ResponseSpec.

(** An HTTP status in the 2xx range. *)
Definition is_2xx (status : Z) : bool := (200 <=? status) && (status <=? 299).

(** "[code] present and not 200000 (as text)" *)
Definition code_rejected (o : pydict json) : bool :=
  match dict_get "code" o with
  | Some c => negb (json_eq_str c "200000")
  | None => false
  end.

(** "[success] present and false", false being what [not] makes true. *)
Definition success_rejected (o : pydict json) : bool :=
  match dict_get "success" o with
  | Some s => negb (json_truthy s)
  | None => false
  end.


End ResponseSpec.

(** The member [key] of a decoded body, absent when the body has no members
    because it is not an object. *)
Definition member (key : string) (res : json) : option json :=
  match res with
  | JObj o => dict_get key o
  | _ => None
  end.

(** The handler as worded for every response, whatever the decoded body:
    the API exception off the 2xx range; the request exception when the body
    does not decode; on a decoded body the API exception if [code] is present
    and not 200000 (as text) or [success] is present and false, and otherwise
    [data] when present, else the whole decoded body. *)
Definition handle_response_as_worded (r : response) : outcome json :=
  if negb (ResponseSpec.is_2xx (status_code r)) then Raise (KucoinAPIException r)
  else
    match json_body r with
    | None => Raise (KucoinRequestException ("Invalid Response: " ++ text r))
    | Some res =>
        let code_rejected :=
          match member "code" res with
          | Some c => negb (json_eq_str c "200000")
          | None => false
          end in
        let success_rejected :=
          match member "success" res with
          | Some s => negb (json_truthy s)
          | None => false
          end in
        if code_rejected || success_rejected then Raise (KucoinAPIException r)
        else match member "data" res with
             | Some d => Return d
             | None => Return res
             end
    end.

(** The exceptions that can leave [_handle_response]: its own two, and the
    errors of an envelope that is not an object. *)
Definition handler_exn (e : exn) : Prop :=
  match e with
  | KucoinAPIException _ | KucoinRequestException _ | TypeError _ | KeyError _ => True
  | _ => False
  end.

Module OrderSpec.

(** An argument is given when it is true for Python's [if]. *)
Definition given (v : pyval) : bool := truthy v.

(** The invalid combinations of a limit order: stop without stop price,
    stop price without stop, cancel-after without good-till-time, hidden
    together with iceberg, iceberg without visible size. *)
Definition limit_order_invalid
    (time_in_force stop stop_price cancel_after hidden iceberg visible_size : pyval)
    : bool :=
  (given stop && negb (given stop_price))
  || (given stop_price && negb (given stop))
  || (given cancel_after && negb (eq_str time_in_force "GTT"))
  || (given hidden && given iceberg)
  || (given iceberg && negb (given visible_size)).

(** The client order identifier of a call: the caller's when given, else
    the next one of the world's supply. *)
Definition client_oid_of (client_oid : pyval) (w : World) : pyval :=
  if given client_oid then client_oid else PStr (uuid_supply w (uuid_draws w)).

End OrderSpec.

(** The client's [requests_params] leave the [data] keyword alone. *)
Definition no_data_override (self : Client) : Prop :=
  match _requests_params self with
  | Some rp => kw_data rp = None
  | None => True
  end.

(** The second at which the UTC day of [t] begins, [t] in seconds. *)
Definition is_utc_day_start (s t : Z) : Prop :=
  s mod 86400 = 0 /\ s <= t < s + 86400.

Arguments Hmac.sha256_digest : simpl never.
Arguments Base64.b64encode : simpl never.
Arguments _generate_signature : simpl never.
Arguments compact_json_dict : simpl never.
Arguments _handle_response : simpl never.
Arguments str_of_Z : simpl never.

(** * Properties *)

(** ** Library checks *)

(** SHA-256 of "abc" (FIPS 180-4, appendix B.1), in base64. *)
Example sha256_abc :
  string_of_list_byte (Base64.b64encode (Sha256.digest (encode_utf8 "abc")))
  = "ungWv48Bz+pBQUDeXa4iI7ADYaOWF3qctBD/YfIAFa0=".
Proof. vm_compute. reflexivity. Qed.

(** RFC 4648, section 10. *)
Example b64encode_foobar :
  map (fun s => string_of_list_byte (Base64.b64encode (encode_utf8 s)))
      ["f"; "fo"; "foo"; "foob"; "fooba"; "foobar"]
  = ["Zg=="; "Zm8="; "Zm9v"; "Zm9vYg=="; "Zm9vYmE="; "Zm9vYmFy"].
Proof. vm_compute. reflexivity. Qed.

(** RFC 4231, test case 2. *)
Example hmac_sha256_rfc4231_2 :
  string_of_list_byte
    (Base64.b64encode
       (Hmac.sha256_digest (encode_utf8 "Jefe")
                           (encode_utf8 "what do ya want for nothing?")))
  = "W9zBRr9gdU5qBCQmCJV1x1oAPwidJzmDnexYuWTsOEM=".
Proof. vm_compute. reflexivity. Qed.

(** ** Text and dictionaries *)

Lemma append_empty_r (s : string) : s ++ EmptyString = s.
Proof.
  induction s as [| c s IH]; simpl.
  - reflexivity.
  - now rewrite IH.
Qed.

Section DictFacts.
Context {V : Type}.
Implicit Types (d : pydict V) (k : string) (v : V).

Lemma dict_get_head k v d : dict_get k ((k, v) :: d) = Some v.
Proof. simpl. now rewrite String.eqb_refl. Qed.

Lemma dict_get_tail k k' v d :
  k' <> k -> dict_get k ((k', v) :: d) = dict_get k d.
Proof.
  intros Hne. simpl.
  destruct (String.eqb_spec k' k) as [E | _]; [contradiction | reflexivity].
Qed.

(** In a well-formed dictionary every item is found under its key. *)
Lemma dict_get_In k v d : wf_dict d -> In (k, v) d -> dict_get k d = Some v.
Proof.
  unfold wf_dict, dict_keys.
  induction d as [| [k' v'] d IH]; intros Hnd Hin.
  - destruct Hin.
  - inversion Hnd as [| ? ? Hfresh Hrest]; subst.
    destruct Hin as [E | Hin].
    + inversion E; subst. apply dict_get_head.
    + rewrite dict_get_tail.
      * now apply IH.
      * intros ->. apply Hfresh. change k with (fst (k, v)). now apply in_map.
Qed.

Lemma dict_get_set_same k v d : dict_get k (dict_set k v d) = Some v.
Proof.
  induction d as [| [k' v'] d IH]; simpl.
  - now rewrite String.eqb_refl.
  - destruct (String.eqb_spec k' k) as [-> | Hne]; simpl.
    + now rewrite String.eqb_refl.
    + destruct (String.eqb_spec k' k); [contradiction | exact IH].
Qed.

Lemma dict_get_set_other k k' v d :
  k' <> k -> dict_get k (dict_set k' v d) = dict_get k d.
Proof.
  intros Hne.
  induction d as [| [k0 v0] d IH]; simpl.
  - destruct (String.eqb_spec k' k); [contradiction | reflexivity].
  - destruct (String.eqb_spec k0 k') as [-> | Hne0]; simpl.
    + destruct (String.eqb_spec k' k); [contradiction | reflexivity].
    + destruct (String.eqb_spec k0 k); [reflexivity | exact IH].
Qed.

Lemma dict_keys_set k k' v d :
  In k' (dict_keys (dict_set k v d)) <-> k' = k \/ In k' (dict_keys d).
Proof.
  unfold dict_keys.
  induction d as [| [k0 v0] d IH]; simpl.
  - intuition.
  - destruct (String.eqb_spec k0 k) as [-> | Hne]; simpl.
    + intuition.
    + rewrite IH. intuition.
Qed.

(** Assignment keeps a dictionary well formed. *)
Lemma dict_set_wf k v d : wf_dict d -> wf_dict (dict_set k v d).
Proof.
  unfold wf_dict.
  induction d as [| [k0 v0] d IH]; simpl; intros Hwf.
  - constructor; [intros [] | constructor].
  - inversion Hwf as [| ? ? Hfresh Hrest]; subst.
    destruct (String.eqb_spec k0 k) as [-> | Hne]; simpl.
    + now constructor.
    + constructor; [| now apply IH].
      intros Hin. apply (dict_keys_set k k0 v d) in Hin.
      destruct Hin as [-> | Hin]; [now apply Hne | now apply Hfresh].
Qed.
End DictFacts.

(** ** The request signer *)

(** On a well-formed dictionary the comprehension of [_get_params_for_sig]
    yields the items in order, each as [key=value]. *)
Lemma params_for_sig_items (data : dict) :
  wf_dict data -> _get_params_for_sig data = SignerSpec.query_string data.
Proof.
  intros Hwf. unfold _get_params_for_sig, SignerSpec.query_string, dict_keys.
  f_equal. rewrite map_map. apply map_ext_in.
  intros [k v] Hin. simpl. unfold dict_item.
  now rewrite (dict_get_In k v data Hwf Hin).
Qed.

Lemma sig_locals_spec (method path : string) (data : dict) :
  wf_dict data ->
  sig_locals method path data
  = (SignerSpec.endpoint (String.eqb method "get") path data,
     SignerSpec.body (String.eqb method "get") data).
Proof.
  intros Hwf. unfold sig_locals, SignerSpec.endpoint, SignerSpec.body.
  destruct (String.eqb method "get"); destruct data as [| kv data']; simpl nonempty; cbv iota;
    try reflexivity.
  now rewrite (params_for_sig_items _ Hwf).
Qed.

(** C1: the signature is base64(HMAC-SHA256(secret, UTF-8 of timestamp ++
    upper-cased method ++ endpoint ++ body)), with endpoint and body by the
    GET / non-GET rule of the specification ([SignerSpec.sign]); the method is
    GET when it is the session method name [get], as the executor passes it.
    It depends on the client through the secret only: clients with equal
    secrets sign equal inputs equally. *)
Theorem generate_signature_is_spec_sign
    (self : Client) (nonce : Z) (method path : string) (data : dict)
    (Hwf : wf_dict data) :
  _generate_signature self nonce method path data
  = SignerSpec.sign (API_SECRET self) nonce method path data
  /\ (forall other : Client,
        API_SECRET other = API_SECRET self ->
        _generate_signature other nonce method path data
        = _generate_signature self nonce method path data).
Proof.
  split.
  - unfold _generate_signature, SignerSpec.sign, sig_str, SignerSpec.canonical.
    now rewrite (sig_locals_spec method path data Hwf).
  - intros other Hsecret. unfold _generate_signature. now rewrite Hsecret.
Qed.

(** The fixed inputs of the specification: the value is the one that
    Python's [hmac], [hashlib] and [base64] give. *)
Example generate_signature_fixed_inputs :
  string_of_list_byte
    (_generate_signature demo_client 1234567890000 "get" "/api/v1/accounts" [])
  = "Gu+d/rYw7kDusD7lJOZPw2uBFIeWkbma8ia6qlaSEVI=".
Proof. vm_compute. reflexivity. Qed.

Lemma generate_signature_is_spec_sign_witness :
  wf_dict [("symbol", PStr "KCS-BTC"); ("side", PStr "buy")]
  /\ _generate_signature demo_client 1234567890000 "get" "/api/v1/orders"
       [("symbol", PStr "KCS-BTC"); ("side", PStr "buy")]
     = SignerSpec.sign "s3cr3t" 1234567890000 "get" "/api/v1/orders"
         [("symbol", PStr "KCS-BTC"); ("side", PStr "buy")].
Proof.
  assert (Hwf : wf_dict [("symbol", PStr "KCS-BTC"); ("side", PStr "buy")]).
  { unfold wf_dict. simpl. repeat constructor; simpl; intuition discriminate. }
  split; [exact Hwf |].
  exact (proj1 (generate_signature_is_spec_sign demo_client 1234567890000 "get"
                  "/api/v1/orders" _ Hwf)).
Defined.

(** C2: for a GET request the endpoint of the canonical string is the path,
    then, when the mapping has items, a question mark and the items as
    [key=value] joined by ampersands in the mapping's own order; with an
    empty mapping it is the path alone. *)
Theorem get_endpoint_keeps_insertion_order
    (nonce : Z) (path : string) (data : dict) (Hwf : wf_dict data) :
  let endpoint := fst (sig_locals "get" path data) in
  (data <> [] ->
   endpoint
   = path ++ "?"
       ++ String.concat "&" (map (fun kv => fst kv ++ "=" ++ py_str (snd kv)) data))
  /\ (data = [] -> endpoint = path)
  /\ sig_str nonce "get" path data = str_of_Z nonce ++ "GET" ++ endpoint.
Proof.
  assert (Hloc : sig_locals "get" path data
                 = (SignerSpec.endpoint true path data, EmptyString)).
  { now rewrite (sig_locals_spec "get" path data Hwf). }
  cbv zeta. unfold sig_str. rewrite Hloc. simpl fst.
  repeat split.
  - intros Hne. destruct data as [| kv data']; [contradiction | reflexivity].
  - intros ->. reflexivity.
  - now rewrite append_empty_r.
Qed.

(** Keys that are not in alphabetical order stay as they were inserted. *)
Example get_endpoint_not_sorted :
  fst (sig_locals "get" "/api/v1/orders"
         [("symbol", PStr "KCS-BTC"); ("side", PStr "buy"); ("pageSize", PInt 50)])
  = "/api/v1/orders?symbol=KCS-BTC&side=buy&pageSize=50".
Proof. vm_compute. reflexivity. Qed.

Lemma get_endpoint_keeps_insertion_order_witness :
  wf_dict [("symbol", PStr "KCS-BTC"); ("side", PStr "buy")]
  /\ sig_str 1234567890000 "get" "/api/v1/orders"
       [("symbol", PStr "KCS-BTC"); ("side", PStr "buy")]
     = "1234567890000GET/api/v1/orders?symbol=KCS-BTC&side=buy".
Proof.
  assert (Hwf : wf_dict [("symbol", PStr "KCS-BTC"); ("side", PStr "buy")]).
  { unfold wf_dict. simpl. repeat constructor; simpl; intuition discriminate. }
  split; [exact Hwf |].
  exact (proj2 (proj2 (get_endpoint_keeps_insertion_order 1234567890000
                         "/api/v1/orders" _ Hwf))).
Defined.

Lemma empty_data_signs_empty_body_aux (nonce : Z) (method path : string) :
  sig_locals method path [] = (path, EmptyString)
  /\ sig_str nonce method path [] = str_of_Z nonce ++ upper method ++ path.
Proof.
  assert (Hloc : sig_locals method path [] = (path, EmptyString)).
  { unfold sig_locals. destruct (String.eqb method "get"); reflexivity. }
  split; [exact Hloc |].
  unfold sig_str. rewrite Hloc. now rewrite append_empty_r.
Qed.

(** C5: with an empty data mapping the body segment of the canonical string
    is the empty text, for every method and so for every non-GET one: the
    string ends with the path.  The compact JSON of the empty mapping would
    have been the two characters of an empty object. *)
Theorem empty_data_signs_empty_body (nonce : Z) (method path : string) :
  snd (sig_locals method path []) = EmptyString
  /\ sig_str nonce method path [] = str_of_Z nonce ++ upper method ++ path
  /\ compact_json_dict [] = "{}"
  /\ snd (sig_locals method path []) <> compact_json_dict [].
Proof.
  destruct (empty_data_signs_empty_body_aux nonce method path) as [Hloc Hstr].
  rewrite Hloc. simpl snd.
  repeat split.
  - exact Hstr.
  - discriminate.
Qed.

(** A non-GET call with data signs the compact JSON of the data. *)
Example post_body_in_canonical_string :
  sig_str 1234567890000 "post" "/api/v1/accounts"
    [("type", PStr "trade"); ("currency", PStr "BTC")]
  = String.concat (String dquote EmptyString)
      ["1234567890000POST/api/v1/accounts{"; "type"; ":"; "trade"; ",";
       "currency"; ":"; "BTC"; "}"].
Proof. vm_compute. reflexivity. Qed.

(** ** The response handler *)

(** On a three-digit status, the test on the first character of [str] is the
    test of the 2xx range. *)
Lemma startswith_2_is_2xx (status : Z) :
  100 <= status <= 999 ->
  prefix "2" (str_of_Z status) = ResponseSpec.is_2xx status.
Proof.
  intros Hrange.
  assert (Hall : forallb
                   (fun n => Bool.eqb (prefix "2" (str_of_Z (Z.of_nat n)))
                                      (ResponseSpec.is_2xx (Z.of_nat n)))
                   (seq 100 900) = true) by (vm_compute; reflexivity).
  rewrite forallb_forall in Hall.
  specialize (Hall (Z.to_nat status)).
  rewrite Z2Nat.id in Hall by lia.
  apply Bool.eqb_prop, Hall, in_seq. lia.
Qed.

Lemma obind_raises {A B} (P : exn -> Prop) (o : outcome A) (f : A -> outcome B)
    (e : exn) :
  (forall e', o = Raise e' -> P e') ->
  (forall a e', f a = Raise e' -> P e') ->
  obind o f = Raise e -> P e.
Proof.
  intros Ho Hf. destruct o as [a | e0]; simpl.
  - apply Hf.
  - intros H. inversion H; subst. now apply Ho.
Qed.

Lemma json_contains_raises (key : string) (res : json) (e : exn) :
  json_contains key res = Raise e -> handler_exn e.
Proof. destruct res; simpl; intros H; inversion H; exact I. Qed.

Lemma json_getitem_raises (res : json) (key : string) (e : exn) :
  json_getitem res key = Raise e -> handler_exn e.
Proof.
  destruct res; simpl; try (intros H; inversion H; exact I).
  destruct (dict_get key o); intros H; inversion H; exact I.
Qed.

Ltac raises_step :=
  match goal with
  | |- obind _ _ = Raise _ -> _ => apply obind_raises; intros
  | |- json_contains _ _ = Raise _ -> _ => apply json_contains_raises
  | |- json_getitem _ _ = Raise _ -> _ => apply json_getitem_raises
  | |- (if ?b then _ else _) = Raise _ -> _ => destruct b
  | |- Return _ = Raise _ -> _ => discriminate
  | |- Raise _ = Raise _ -> _ =>
      let H := fresh in intros H; inversion H; subst; exact I
  | H : ?lhs = Raise _ |- _ => revert H
  end.

(** The handler raises nothing but its own two exceptions and the errors of
    ill-typed envelopes. *)
Lemma handle_response_raises (r : response) (e : exn) :
  _handle_response r = Raise e -> handler_exn e.
Proof.
  unfold _handle_response.
  destruct (negb (prefix "2" (str_of_Z (status_code r)))); [raises_step |].
  destruct (json_body r) as [res |]; [| raises_step].
  repeat raises_step.
Qed.



(** The four responses of the specification's examples. *)
Example handle_response_examples :
  _handle_response
    (mk_response 200 "ok"
       (Some (JObj [("code", JStr "200000"); ("data", JObj [("x", JNum 1)])])))
  = Return (JObj [("x", JNum 1)])
  /\ (let r := mk_response 200 "bad"
                 (Some (JObj [("code", JStr "400001"); ("msg", JStr "bad")])) in
      _handle_response r = Raise (KucoinAPIException r))
  /\ (let r := mk_response 500 "oops" (Some (JObj [("code", JStr "200000")])) in
      _handle_response r = Raise (KucoinAPIException r))
  /\ _handle_response (mk_response 200 "<html>" None)
     = Raise (KucoinRequestException "Invalid Response: <html>").
Proof. vm_compute. repeat split. Qed.


(** On every JSON object the worded handler and the code agree, for a
    three-digit status: the objects are where the wording holds. *)
Lemma handle_response_as_worded_on_objects (r : response) (o : pydict json) :
  100 <= status_code r <= 999 ->
  json_body r = Some (JObj o) ->
  _handle_response r = handle_response_as_worded r.
Proof.
  intros Hstatus Hbody.
  unfold _handle_response, handle_response_as_worded.
  rewrite (startswith_2_is_2xx _ Hstatus), Hbody.
  destruct (ResponseSpec.is_2xx (status_code r)); [| reflexivity].
  simpl. unfold dict_mem.
  destruct (dict_get "code" o) as [c |]; simpl.
  - destruct (json_eq_str c "200000"); simpl; [| reflexivity].
    destruct (dict_get "success" o) as [s |]; simpl.
    + destruct (json_truthy s); simpl; [| reflexivity].
      destruct (dict_get "data" o); reflexivity.
    + destruct (dict_get "data" o); reflexivity.
  - destruct (dict_get "success" o) as [s |]; simpl.
    + destruct (json_truthy s); simpl; [| reflexivity].
      destruct (dict_get "data" o); reflexivity.
    + destruct (dict_get "data" o); reflexivity.
Qed.

(** A status of four digits that begins with 2 passes the first test. *)
Remark handle_response_outside_bounds :
  _handle_response (mk_response 2000 "x" (Some (JObj []))) = Return (JObj []).
Proof. vm_compute. reflexivity. Qed.

(** ** The request executor *)

Lemma sign_headers_sign (self : Client) (nonce : Z) (method full_path : string)
    (data : dict) (headers : hdict) :
  dict_get "KC-API-SIGN" (sign_headers self nonce method full_path data headers)
  = Some (HBytes (_generate_signature self nonce method full_path data)).
Proof. unfold sign_headers. apply dict_get_set_same. Qed.

Lemma sign_headers_timestamp (self : Client) (nonce : Z) (method full_path : string)
    (data : dict) (headers : hdict) :
  dict_get "KC-API-TIMESTAMP" (sign_headers self nonce method full_path data headers)
  = Some (HStr (str_of_Z nonce)).
Proof.
  unfold sign_headers.
  rewrite dict_get_set_other by discriminate. apply dict_get_set_same.
Qed.

(** One run of [_request]: exactly one call is dispatched, built from the
    merged keyword arguments; a signed run reads the clock once; the outcome
    is a failure of the transport or what the handler makes of the reply. *)
Lemma request_run (self : Client) (method path : string) (signed : bool)
    (kw : kwargs) (w : World) :
  let run := _request self method path signed kw w in
  let data := request_data self kw in
  let is_get := String.eqb method "get" in
  let nonce := Z.quot (clock w (clock_reads w)) 1000 in
  exists call : http_call,
    sent (snd run) = (sent w ++ [call])%list
    /\ uuid_draws (snd run) = uuid_draws w
    /\ hc_method call = method
    /\ hc_uri call = _create_uri self (_create_path self path)
    /\ hc_data call
       = (if nonempty data && is_get then None
          else if signed && negb is_get && nonempty data
               then Some (Body (compact_json_dict data))
               else Some (Form data))
    /\ hc_params call
       = (if nonempty data && is_get then Some data
          else kw_params (merged_kwargs self kw))
    /\ (signed = true ->
        dict_get "KC-API-TIMESTAMP" (hc_headers call) = Some (HStr (str_of_Z nonce))
        /\ dict_get "KC-API-SIGN" (hc_headers call)
           = Some (HBytes (_generate_signature self nonce method
                             (_create_path self path) data)))
    /\ ((exists msg, fst run = Raise (RequestsError msg))
        \/ (exists r, fst run = _handle_response r)).
Proof.
  cbv zeta. unfold _request, request_data.
  set (kwargs := merged_kwargs self kw).
  set (data := match kw_data kwargs with Some d => d | None => [] end).
  set (headers := match kw_headers kwargs with Some h => h | None => [] end).
  unfold bind, ret, lift, time_ms, session_call, read_clock, bind, ret.
  destruct signed; cbn [fst snd sent server clock clock_reads];
    match goal with
    | |- context [server w ?log] => destruct (server w log) as [r | msg]
    end;
    cbn [fst snd sent uuid_draws];
    eexists; (split; [reflexivity |]);
    cbn [hc_method hc_uri hc_data hc_params hc_headers];
    repeat split; try discriminate; eauto using sign_headers_sign, sign_headers_timestamp.
Qed.

(** C4: a signed non-GET request with data transmits as its body the very
    text that is the body component of the canonical string: both are the
    compact JSON of the one data mapping, and the signature header covers
    timestamp, upper-cased method, versioned path and that body. *)
Theorem signed_body_is_transmitted_body
    (self : Client) (method path : string) (kw : kwargs) (w : World)
    (Hmethod : method <> "get") (Hdata : request_data self kw <> []) :
  let run := _request self method path true kw w in
  let data := request_data self kw in
  let full_path := _create_path self path in
  let nonce := Z.quot (clock w (clock_reads w)) 1000 in
  exists (call : http_call) (body : string),
    sent (snd run) = (sent w ++ [call])%list
    /\ hc_data call = Some (Body body)
    /\ snd (sig_locals method full_path data) = body
    /\ body = compact_json_dict data
    /\ dict_get "KC-API-SIGN" (hc_headers call)
       = Some (HBytes
                 (Base64.b64encode
                    (Hmac.sha256_digest
                       (encode_utf8 (API_SECRET self))
                       (encode_utf8 (str_of_Z nonce ++ upper method ++ full_path
                                       ++ body))))).
Proof.
  cbv zeta.
  destruct (request_run self method path true kw w)
    as (call & Hsent & _ & _ & _ & Hbody & _ & Hsig & _).
  destruct (Hsig eq_refl) as [_ Hsign].
  assert (Hget : String.eqb method "get" = false) by now apply String.eqb_neq.
  assert (Hne : nonempty (request_data self kw) = true).
  { destruct (request_data self kw); [contradiction | reflexivity]. }
  assert (Hloc : sig_locals method (_create_path self path) (request_data self kw)
                 = (_create_path self path, compact_json_dict (request_data self kw))).
  { unfold sig_locals. now rewrite Hget, Hne. }
  exists call, (compact_json_dict (request_data self kw)).
  repeat split.
  - exact Hsent.
  - rewrite Hbody, Hget, Hne. rewrite Bool.andb_false_r. reflexivity.
  - now rewrite Hloc.
  - rewrite Hsign. unfold _generate_signature, sig_str. now rewrite Hloc.
Qed.

Lemma signed_body_is_transmitted_body_witness :
  "post" <> "get"
  /\ request_data demo_client (data_kwarg [("currency", PStr "BTC")]) <> []
  /\ exists (call : http_call) (body : string),
       sent (snd (_request demo_client "post" "deposit-addresses" true
                    (data_kwarg [("currency", PStr "BTC")]) demo_world))
       = [call]
       /\ hc_data call = Some (Body body)
       /\ snd (sig_locals "post" "/api/v1/deposit-addresses" [("currency", PStr "BTC")])
          = body.
Proof.
  assert (H1 : "post" <> "get") by discriminate.
  assert (H2 : request_data demo_client (data_kwarg [("currency", PStr "BTC")]) <> [])
    by discriminate.
  split; [exact H1 |]. split; [exact H2 |].
  destruct (signed_body_is_transmitted_body demo_client "post" "deposit-addresses"
              (data_kwarg [("currency", PStr "BTC")]) demo_world H1 H2)
    as (call & body & Hsent & Hdata & Hloc & _).
  exists call, body. repeat split; assumption.
Defined.

(** The body that is sent, and the one that is signed, on a concrete call. *)
Example post_sends_signed_body :
  map hc_data
    (sent (snd (_post demo_client "deposit-addresses" true
                  (data_kwarg [("currency", PStr "BTC")]) demo_world)))
  = [Some (Body (String.concat (String dquote EmptyString)
                   ["{"; "currency"; ":"; "BTC"; "}"]))].
Proof. vm_compute. reflexivity. Qed.

(** A signed request without data signs the timestamp, the method and the
    versioned path, and nothing after them. *)
Lemma signed_empty_data_header
    (self : Client) (method path : string) (kw : kwargs) (w : World) :
  request_data self kw = [] ->
  let nonce := Z.quot (clock w (clock_reads w)) 1000 in
  exists call : http_call,
    sent (snd (_request self method path true kw w)) = (sent w ++ [call])%list
    /\ dict_get "KC-API-SIGN" (hc_headers call)
       = Some (HBytes
                 (Base64.b64encode
                    (Hmac.sha256_digest
                       (encode_utf8 (API_SECRET self))
                       (encode_utf8 (str_of_Z nonce ++ upper method
                                       ++ _create_path self path))))).
Proof.
  intros Hempty. cbv zeta.
  destruct (request_run self method path true kw w)
    as (call & Hsent & _ & _ & _ & _ & _ & Hsig & _).
  destruct (Hsig eq_refl) as [_ Hsign].
  set (nonce := Z.quot (clock w (clock_reads w)) 1000) in *.
  exists call. split; [exact Hsent |].
  rewrite Hsign, Hempty. unfold _generate_signature.
  now rewrite (proj2 (empty_data_signs_empty_body_aux nonce method (_create_path self path))).
Qed.

(** [get_accounts] at the fixed inputs of the specification: timestamp
    1234567890000, GET, /api/v1/accounts, no data, secret s3cr3t. *)
Example get_accounts_headers :
  map (fun call =>
         (hc_method call, hc_uri call, hc_data call, dict_get "KC-API-TIMESTAMP" (hc_headers call),
          option_map (fun h => match h with
                               | HBytes b => string_of_list_byte b
                               | HStr t => t
                               end)
                     (dict_get "KC-API-SIGN" (hc_headers call))))
      (sent (snd (get_accounts demo_client demo_world)))
  = [("get", "https://openapi-v2.kucoin.com/api/v1/accounts", Some (Form []),
      Some (HStr "1234567890000"),
      Some "Gu+d/rYw7kDusD7lJOZPw2uBFIeWkbma8ia6qlaSEVI=")].
Proof. vm_compute. reflexivity. Qed.

(** ** Endpoints *)

Lemma request_data_kwarg (self : Client) (data : dict) :
  no_data_override self -> request_data self (data_kwarg data) = data.
Proof.
  unfold no_data_override, request_data, merged_kwargs.
  destruct (_requests_params self) as [rp |]; [| reflexivity].
  intros Hrp. destruct (kwargs_nonempty rp); [| reflexivity].
  simpl. now rewrite Hrp.
Qed.

(** An endpoint's call [f(path, signed, data=data)] on a client that leaves
    [data] alone. *)
Lemma endpoint_run (self : Client) (method path : string) (signed : bool)
    (data : dict) (w : World) :
  no_data_override self ->
  let run := _request self method path signed (data_kwarg data) w in
  let is_get := String.eqb method "get" in
  exists call : http_call,
    sent (snd run) = (sent w ++ [call])%list
    /\ uuid_draws (snd run) = uuid_draws w
    /\ hc_method call = method
    /\ hc_uri call = _create_uri self (_create_path self path)
    /\ hc_data call
       = (if nonempty data && is_get then None
          else if signed && negb is_get && nonempty data
               then Some (Body (compact_json_dict data))
               else Some (Form data))
    /\ (nonempty data && is_get = true -> hc_params call = Some data)
    /\ (forall e, fst run = Raise e ->
        handler_exn e \/ exists msg, e = RequestsError msg).
Proof.
  intros Hself. cbv zeta.
  destruct (request_run self method path signed (data_kwarg data) w)
    as (call & Hsent & Hdraws & Hm & Huri & Hdata & Hparams & _ & Hout).
  rewrite (request_data_kwarg self data Hself) in Hdata, Hparams.
  exists call. repeat split; try assumption.
  - intros Hget. now rewrite Hparams, Hget.
  - intros e He. destruct Hout as [[msg Hmsg] | [r Hr]].
    + right. exists msg. congruence.
    + left. apply (handle_response_raises r). congruence.
Qed.

Arguments _request : simpl never.

Lemma dict_get_nonempty {V : Type} (k : string) (v : V) (d : pydict V) :
  dict_get k d = Some v -> nonempty d = true.
Proof. destruct d; [discriminate | reflexivity]. Qed.

(** A signed POST of data that holds at least one key. *)
Lemma signed_post_run (self : Client) (path : string) (data : dict) (w : World)
    (k : string) (v : pyval) :
  no_data_override self ->
  dict_get k data = Some v ->
  let run := _request self "post" path true (data_kwarg data) w in
  exists call : http_call,
    sent (snd run) = (sent w ++ [call])%list
    /\ uuid_draws (snd run) = uuid_draws w
    /\ hc_data call = Some (Body (compact_json_dict data))
    /\ (forall e, fst run = Raise e ->
        handler_exn e \/ exists msg, e = RequestsError msg).
Proof.
  intros Hself Hk. cbv zeta.
  destruct (endpoint_run self "post" path true data w Hself)
    as (call & Hsent & Hdraws & _ & _ & Hdata & _ & Hexn).
  rewrite (dict_get_nonempty k v data Hk) in Hdata.
  exists call. repeat split; assumption.
Qed.

Lemma dict_get_cond_set {V : Type} (b : bool) (k k' : string) (v : V) (d : pydict V) :
  k' <> k -> dict_get k (if b then dict_set k' v d else d) = dict_get k d.
Proof. intros Hne. destruct b; [now apply dict_get_set_other | reflexivity]. Qed.

Lemma dict_get_cond_set2 {V : Type} (b : bool) (k k1 k2 : string) (v1 v2 : V)
    (d : pydict V) :
  k1 <> k -> k2 <> k ->
  dict_get k (if b then dict_set k2 v2 (dict_set k1 v1 d) else d) = dict_get k d.
Proof.
  intros H1 H2. destruct b; [| reflexivity].
  rewrite dict_get_set_other by assumption. now apply dict_get_set_other.
Qed.

(** Runs the monadic prelude of an endpoint down to its call of [_request],
    leaving the data as the assignments built it. *)
Ltac to_request :=
  unfold _post, _get, _delete, bind, ret, raise, flat_uuid, utc_midnight, time_s,
    read_clock, bind, ret;
  cbn [negb andb orb]; cbv beta iota zeta.

(** Looks a key up through the conditional assignments of an endpoint. *)
Ltac lookup_through :=
  repeat first
    [ rewrite dict_get_cond_set by discriminate
    | rewrite dict_get_cond_set2 by discriminate
    | rewrite dict_get_set_other by discriminate ];
  first [ apply dict_get_set_same | reflexivity ].

(** Brings in the facts of [signed_post_run] about the order that the goal
    posts, once [clientOid] is found in its data. *)
Ltac with_posted_order Hself oid call :=
  match goal with
  | |- context [_request ?c "post" ?p true (data_kwarg ?d) ?w'] =>
      let Hoid := fresh "Hoid" in
      let Hsent := fresh "Hsent" in
      let Hdraws := fresh "Hdraws" in
      let Hdata := fresh "Hdata" in
      let Hexn := fresh "Hexn" in
      assert (Hoid : dict_get "clientOid" d = Some oid) by lookup_through;
      destruct (signed_post_run c p d w' "clientOid" oid Hself Hoid)
        as (call & Hsent & Hdraws & Hdata & Hexn);
      cbn [sent uuid_draws] in Hsent, Hdraws
  end.

(** C6: [create_market_order] raises the market-order exception, leaving the
    world untouched (no clock read, no identifier drawn, nothing sent), when
    size and funds are both given and when neither is; given means true for
    Python's [if].  With exactly one given it raises no market-order
    exception, dispatches one call whose body is the compact JSON of the
    data, and the data holds under [clientOid] the caller's identifier, or
    the next generated one when the caller gives none. *)
Theorem create_market_order_validation
    (self : Client) (symbol side size funds client_oid remark stp : pyval)
    (w : World) (Hself : no_data_override self) :
  let run := create_market_order self symbol side size funds client_oid remark stp w in
  (truthy size = true -> truthy funds = true ->
   run = (Raise (MarketOrderException "Need size or fund parameter not both"), w))
  /\ (truthy size = false -> truthy funds = false ->
      run = (Raise (MarketOrderException "Need size or fund parameter"), w))
  /\ (truthy size <> truthy funds ->
      (forall msg, fst run <> Raise (MarketOrderException msg))
      /\ exists (data : dict) (call : http_call),
           sent (snd run) = (sent w ++ [call])%list
           /\ hc_data call = Some (Body (compact_json_dict data))
           /\ dict_get "clientOid" data
              = Some (if truthy client_oid then client_oid
                      else PStr (uuid_supply w (uuid_draws w)))
           /\ uuid_draws (snd run)
              = if truthy client_oid then uuid_draws w else S (uuid_draws w)).
Proof.
  cbv zeta. unfold create_market_order.
  split; [| split].
  - intros -> ->. reflexivity.
  - intros -> ->. reflexivity.
  - destruct (truthy size), (truthy funds); intros Hone;
      try (exfalso; apply Hone; reflexivity);
      destruct (truthy client_oid); to_request;
      [ with_posted_order Hself client_oid call
      | with_posted_order Hself (PStr (uuid_supply w (uuid_draws w))) call
      | with_posted_order Hself client_oid call
      | with_posted_order Hself (PStr (uuid_supply w (uuid_draws w))) call ];
      (split;
       [ intros msg Hmsg; destruct (Hexn _ Hmsg) as [[] | [? Habs]]; discriminate Habs
       | eexists; exists call; repeat split;
         [ exact Hsent | exact Hdata | exact Hoid | exact Hdraws ] ]).
Qed.

Lemma create_market_order_validation_witness :
  no_data_override demo_client
  /\ forall msg,
       fst (create_market_order demo_client (PStr "KCS-BTC") (PStr "buy") (PInt 3)
              PNone PNone PNone PNone demo_world)
       <> Raise (MarketOrderException msg).
Proof.
  assert (Hself : no_data_override demo_client) by exact I.
  split; [exact Hself |].
  refine (proj1 (proj2 (proj2 (create_market_order_validation demo_client
                                 (PStr "KCS-BTC") (PStr "buy") (PInt 3) PNone PNone
                                 PNone PNone demo_world Hself)) _)).
  discriminate.
Defined.

(** A market order for a size, without client identifier. *)
Example create_market_order_sends :
  map hc_data
    (sent (snd (create_market_order demo_client (PStr "KCS-BTC") (PStr "buy")
                  (PInt 3) PNone PNone PNone PNone demo_world)))
  = [Some (Body (compact_json_dict
                   [("side", PStr "buy"); ("symbol", PStr "KCS-BTC");
                    ("type", PStr "market"); ("size", PInt 3);
                    ("clientOid", PStr "uuid0")]))].
Proof. vm_compute. reflexivity. Qed.

Lemma request_raises (self : Client) (method path : string) (signed : bool)
    (kw : kwargs) (w : World) (e : exn) :
  fst (_request self method path signed kw w) = Raise e ->
  handler_exn e \/ exists msg, e = RequestsError msg.
Proof.
  destruct (request_run self method path signed kw w)
    as (call & _ & _ & _ & _ & _ & _ & _ & Hout).
  intros He. destruct Hout as [[msg Hmsg] | [r Hr]].
  - right. exists msg. congruence.
  - left. apply (handle_response_raises r). congruence.
Qed.

(** C7: [create_limit_order] raises the limit-order exception exactly in the
    five invalid combinations (stop without stop price, stop price without
    stop, cancel-after while time-in-force is not GTT, hidden with iceberg,
    iceberg without visible size), given meaning true for Python's [if]; when
    it does, the world is untouched: nothing was sent. *)
Theorem create_limit_order_validation
    (self : Client)
    (symbol side price size client_oid remark time_in_force stop stop_price stp
     cancel_after post_only hidden iceberg visible_size : pyval) (w : World) :
  let run :=
    create_limit_order self symbol side price size client_oid remark time_in_force
      stop stop_price stp cancel_after post_only hidden iceberg visible_size w in
  let invalid :=
    OrderSpec.limit_order_invalid time_in_force stop stop_price cancel_after hidden
      iceberg visible_size in
  (invalid = true -> exists msg, run = (Raise (LimitOrderException msg), w))
  /\ (invalid = false -> forall msg, fst run <> Raise (LimitOrderException msg)).
Proof.
  cbv zeta.
  unfold create_limit_order, OrderSpec.limit_order_invalid, OrderSpec.given,
    TIMEINFORCE_GOOD_TILL_TIME.
  destruct (truthy stop && negb (truthy stop_price));
    [split; [intros _; eexists; reflexivity | discriminate] |].
  destruct (truthy stop_price && negb (truthy stop));
    [split; [intros _; eexists; reflexivity | discriminate] |].
  destruct (truthy cancel_after && negb (eq_str time_in_force "GTT"));
    [split; [intros _; eexists; reflexivity | discriminate] |].
  destruct (truthy hidden && truthy iceberg);
    [split; [intros _; eexists; reflexivity | discriminate] |].
  destruct (truthy iceberg && negb (truthy visible_size));
    [split; [intros _; eexists; reflexivity | discriminate] |].
  split; [discriminate |].
  intros _ msg Hmsg.
  destruct (truthy client_oid); revert Hmsg; to_request; intros Hmsg;
    destruct (request_raises _ _ _ _ _ _ _ Hmsg) as [[] | [? Habs]]; discriminate Habs.
Qed.

Lemma create_limit_order_validation_witness :
  (exists msg,
     create_limit_order demo_client (PStr "KCS-BTC") (PStr "buy") (PStr "0.1") (PInt 3)
       PNone PNone PNone (PStr "loss") PNone PNone PNone PNone PNone PNone PNone
       demo_world
     = (Raise (LimitOrderException msg), demo_world))
  /\ forall msg,
       fst (create_limit_order demo_client (PStr "KCS-BTC") (PStr "buy") (PStr "0.1")
              (PInt 3) PNone PNone PNone PNone PNone PNone PNone PNone PNone PNone
              PNone demo_world)
       <> Raise (LimitOrderException msg).
Proof.
  split.
  - exact (proj1 (create_limit_order_validation demo_client (PStr "KCS-BTC")
                    (PStr "buy") (PStr "0.1") (PInt 3) PNone PNone PNone (PStr "loss")
                    PNone PNone PNone PNone PNone PNone PNone demo_world) eq_refl).
  - exact (proj2 (create_limit_order_validation demo_client (PStr "KCS-BTC")
                    (PStr "buy") (PStr "0.1") (PInt 3) PNone PNone PNone PNone
                    PNone PNone PNone PNone PNone PNone PNone demo_world) eq_refl).
Defined.

(** The three invalid limit orders of the specification's examples. *)
Example create_limit_order_examples :
  let order stop stop_price hidden iceberg visible_size :=
    fst (create_limit_order demo_client (PStr "KCS-BTC") (PStr "buy") (PStr "0.1")
           (PInt 3) PNone PNone PNone stop stop_price PNone PNone PNone hidden
           iceberg visible_size demo_world) in
  order (PStr "loss") PNone PNone PNone PNone
  = Raise (LimitOrderException "Stop order needs stop_price")
  /\ order PNone PNone PNone (PBool true) PNone
     = Raise (LimitOrderException "Iceberg order requires visible_size")
  /\ exists msg,
       order PNone PNone (PBool true) (PBool true) (PInt 1)
       = Raise (LimitOrderException msg).
Proof. vm_compute. repeat split. eexists. reflexivity. Qed.

(** C8: every market order and limit order that passes validation, and every
    inner transfer, dispatches one call whose body is the compact JSON of a
    data mapping that holds a client order identifier under [clientOid]: the
    caller's when given (true for Python's [if]), else a generated one, for
    [create_limit_order] as for the other two. *)
Theorem client_oid_always_sent (self : Client) (w : World)
    (Hself : no_data_override self) :
  let carries (client_oid : pyval) (run : outcome json * World) :=
    exists (data : dict) (call : http_call),
      sent (snd run) = (sent w ++ [call])%list
      /\ hc_data call = Some (Body (compact_json_dict data))
      /\ dict_get "clientOid" data = Some (OrderSpec.client_oid_of client_oid w) in
  (forall symbol side size funds client_oid remark stp,
      truthy size <> truthy funds ->
      carries client_oid
        (create_market_order self symbol side size funds client_oid remark stp w))
  /\ (forall symbol side price size client_oid remark time_in_force stop stop_price
             stp cancel_after post_only hidden iceberg visible_size,
        OrderSpec.limit_order_invalid time_in_force stop stop_price cancel_after
          hidden iceberg visible_size = false ->
        carries client_oid
          (create_limit_order self symbol side price size client_oid remark
             time_in_force stop stop_price stp cancel_after post_only hidden iceberg
             visible_size w))
  /\ (forall from_account_id to_account_id amount order_id,
        carries order_id
          (create_inner_transfer self from_account_id to_account_id amount order_id w)).
Proof.
  cbv zeta. unfold OrderSpec.client_oid_of, OrderSpec.given.
  split; [| split].
  - intros symbol side size funds client_oid remark stp Hone.
    unfold create_market_order.
    destruct (truthy size), (truthy funds);
      try (exfalso; apply Hone; reflexivity);
      destruct (truthy client_oid); to_request;
      [ with_posted_order Hself client_oid call
      | with_posted_order Hself (PStr (uuid_supply w (uuid_draws w))) call
      | with_posted_order Hself client_oid call
      | with_posted_order Hself (PStr (uuid_supply w (uuid_draws w))) call ];
      (eexists; exists call; repeat split; [exact Hsent | exact Hdata | exact Hoid]).
  - intros symbol side price size client_oid remark time_in_force stop stop_price
      stp cancel_after post_only hidden iceberg visible_size Hvalid.
    unfold OrderSpec.limit_order_invalid, OrderSpec.given in Hvalid.
    repeat (apply Bool.orb_false_elim in Hvalid;
            let H := fresh "Hcase" in destruct Hvalid as [Hvalid H]).
    unfold create_limit_order, TIMEINFORCE_GOOD_TILL_TIME.
    rewrite Hvalid, Hcase, Hcase0, Hcase1, Hcase2.
    destruct (truthy client_oid); to_request;
      [ with_posted_order Hself client_oid call
      | with_posted_order Hself (PStr (uuid_supply w (uuid_draws w))) call ];
      (eexists; exists call; repeat split; [exact Hsent | exact Hdata | exact Hoid]).
  - intros from_account_id to_account_id amount order_id.
    unfold create_inner_transfer.
    destruct (truthy order_id); to_request;
      [ with_posted_order Hself order_id call
      | with_posted_order Hself (PStr (uuid_supply w (uuid_draws w))) call ];
      (eexists; exists call; repeat split; [exact Hsent | exact Hdata | exact Hoid]).
Qed.

Lemma client_oid_always_sent_witness :
  no_data_override demo_client
  /\ exists (data : dict) (call : http_call),
       sent (snd (create_limit_order demo_client (PStr "KCS-BTC") (PStr "buy")
                    (PStr "0.1") (PInt 3) PNone PNone PNone PNone PNone PNone PNone
                    PNone PNone PNone PNone demo_world))
       = [call]
       /\ hc_data call = Some (Body (compact_json_dict data))
       /\ dict_get "clientOid" data = Some (PStr "uuid0").
Proof.
  assert (Hself : no_data_override demo_client) by exact I.
  split; [exact Hself |].
  exact (proj1 (proj2 (client_oid_always_sent demo_client demo_world Hself))
           (PStr "KCS-BTC") (PStr "buy") (PStr "0.1") (PInt 3) PNone PNone PNone
           PNone PNone PNone PNone PNone PNone PNone PNone eq_refl).
Defined.

(** A limit order without client identifier, and one with it. *)
Example create_limit_order_sends :
  map hc_data
    (sent (snd (create_limit_order demo_client (PStr "KCS-BTC") (PStr "buy")
                  (PStr "0.1") (PInt 3) PNone PNone PNone PNone PNone PNone PNone
                  PNone PNone PNone PNone demo_world)))
  = [Some (Body (compact_json_dict
                   [("symbol", PStr "KCS-BTC"); ("side", PStr "buy");
                    ("type", PStr "limit"); ("price", PStr "0.1"); ("size", PInt 3);
                    ("clientOid", PStr "uuid0")]))]
  /\ map hc_data
       (sent (snd (create_limit_order demo_client (PStr "KCS-BTC") (PStr "buy")
                     (PStr "0.1") (PInt 3) (PStr "mine") PNone PNone PNone PNone
                     PNone PNone PNone PNone PNone PNone demo_world)))
     = [Some (Body (compact_json_dict
                      [("symbol", PStr "KCS-BTC"); ("side", PStr "buy");
                       ("type", PStr "limit"); ("price", PStr "0.1");
                       ("size", PInt 3); ("clientOid", PStr "mine")]))].
Proof. vm_compute. split; reflexivity. Qed.

(** C9: [cancel_all_orders] without symbol dispatches a DELETE whose data is
    the empty mapping, in which there is no [symbol] key at all; with a
    symbol the data is the mapping of [symbol] to exactly that value, sent as
    its compact JSON. *)
Theorem cancel_all_orders_symbol_field
    (self : Client) (symbol : pyval) (w : World) (Hself : no_data_override self) :
  let run := cancel_all_orders self symbol w in
  exists (data : dict) (call : http_call),
    sent (snd run) = (sent w ++ [call])%list
    /\ hc_method call = "delete"
    /\ hc_data call
       = Some (if nonempty data then Body (compact_json_dict data) else Form data)
    /\ (symbol = PNone -> data = [] /\ dict_mem "symbol" data = false)
    /\ (symbol <> PNone ->
        data = [("symbol", symbol)] /\ dict_get "symbol" data = Some symbol).
Proof.
  cbv zeta. unfold cancel_all_orders, _delete.
  match goal with
  | |- context [_request self "delete" "orders" true (data_kwarg ?d) w] =>
      destruct (endpoint_run self "delete" "orders" true d w Hself)
        as (call & Hsent & _ & Hmethod & _ & Hdata & _ & _);
      exists d, call
  end.
  split; [exact Hsent |]. split; [exact Hmethod |].
  destruct symbol; simpl in Hdata |- *;
    (split; [exact Hdata |]);
    split; intros H; try discriminate H; try (exfalso; apply H; reflexivity);
    split; reflexivity.
Qed.

Lemma cancel_all_orders_symbol_field_witness :
  no_data_override demo_client
  /\ exists (data : dict) (call : http_call),
       sent (snd (cancel_all_orders demo_client PNone demo_world)) = [call]
       /\ hc_data call = Some (Form data)
       /\ dict_mem "symbol" data = false.
Proof.
  assert (Hself : no_data_override demo_client) by exact I.
  split; [exact Hself |].
  destruct (cancel_all_orders_symbol_field demo_client PNone demo_world Hself)
    as (data & call & Hsent & _ & Hdata & Hnone & _).
  destruct (Hnone eq_refl) as [Hempty Hmem].
  exists data, call. repeat split; [exact Hsent | | exact Hmem].
  rewrite Hdata, Hempty. reflexivity.
Defined.

(** The two calls on the demonstration world. *)
Example cancel_all_orders_sends :
  map hc_data (sent (snd (cancel_all_orders demo_client PNone demo_world)))
  = [Some (Form [])]
  /\ map hc_data
       (sent (snd (cancel_all_orders demo_client (PStr "KCS-BTC") demo_world)))
     = [Some (Body (compact_json_dict [("symbol", PStr "KCS-BTC")]))].
Proof. vm_compute. split; reflexivity. Qed.

Lemma utc_day_start_floor (t : Z) : is_utc_day_start (86400 * (t / 86400)) t.
Proof.
  unfold is_utc_day_start. split.
  - rewrite Z.mul_comm. apply Z.mod_mul. discriminate.
  - pose proof (Z.div_mod t 86400 ltac:(discriminate)) as Hdm.
    pose proof (Z.mod_pos_bound t 86400 ltac:(reflexivity)) as Hb.
    lia.
Qed.

(** C10: [get_kline_data] always sends both [startAt] and [endAt] among its
    query parameters: the caller's values when they are not [None], and
    otherwise, for [startAt], the second at which the UTC day of the clock
    reading begins and, for [endAt], the clock reading in whole seconds. *)
Theorem get_kline_data_defaults
    (self : Client) (symbol kline_type start end_ : pyval) (w : World)
    (Hself : no_data_override self) :
  let run := get_kline_data self symbol kline_type start end_ w in
  let now1 := clock w (clock_reads w) in
  let now2 :=
    clock w (if is_not_None start then clock_reads w else S (clock_reads w)) in
  let day_start := 86400 * ((now1 / 1000000) / 86400) in
  exists (data : dict) (call : http_call),
    sent (snd run) = (sent w ++ [call])%list
    /\ hc_method call = "get"
    /\ hc_params call = Some data
    /\ hc_data call = None
    /\ dict_get "startAt" data
       = Some (if is_not_None start then start else PInt day_start)
    /\ dict_get "endAt" data
       = Some (if is_not_None end_ then end_ else PInt (Z.quot now2 1000000))
    /\ is_utc_day_start day_start (now1 / 1000000).
Proof.
  cbv zeta. unfold get_kline_data.
  destruct (is_not_None start), (is_not_None end_); to_request;
    match goal with
    | |- context [_request self "get" ?p false (data_kwarg ?d) ?w'] =>
        assert (Hs : exists v, dict_get "startAt" d = Some v)
          by (eexists; lookup_through);
        destruct Hs as [v Hv];
        destruct (endpoint_run self "get" p false d w' Hself)
          as (call & Hsent & _ & Hmethod & _ & Hdata & Hparams & _);
        rewrite (dict_get_nonempty _ _ _ Hv) in Hdata, Hparams;
        exists d, call
    end;
    cbn [sent clock clock_reads] in *;
    (split; [exact Hsent |]; split; [exact Hmethod |];
     split; [exact (Hparams eq_refl) |]; split; [exact Hdata |];
     split; [lookup_through |];
     split; [lookup_through | apply utc_day_start_floor]).
Qed.

Lemma get_kline_data_defaults_witness :
  no_data_override demo_client
  /\ exists (data : dict) (call : http_call),
       sent (snd (get_kline_data demo_client (PStr "KCS-BTC") (PStr "5min") PNone
                    PNone demo_world))
       = [call]
       /\ hc_params call = Some data
       /\ dict_get "startAt" data = Some (PInt 1234483200)
       /\ dict_get "endAt" data = Some (PInt 1234567890).
Proof.
  assert (Hself : no_data_override demo_client) by exact I.
  split; [exact Hself |].
  destruct (get_kline_data_defaults demo_client (PStr "KCS-BTC") (PStr "5min") PNone
              PNone demo_world Hself)
    as (data & call & Hsent & _ & Hparams & _ & Hstart & Hend & _).
  exists data, call. repeat split; assumption.
Defined.

(** The query parameters on the demonstration world, whose clock stands at
    1234567890 seconds, that is 2009-02-13 23:31:30 UTC. *)
Example get_kline_data_sends :
  map hc_params
    (sent (snd (get_kline_data demo_client (PStr "KCS-BTC") (PStr "5min") PNone
                  PNone demo_world)))
  = [Some [("symbol", PStr "KCS-BTC"); ("type", PStr "5min");
           ("startAt", PInt 1234483200); ("endAt", PInt 1234567890)]].
Proof. vm_compute. reflexivity. Qed.

(** * Further properties of the executor, the handler and the endpoints *)

(** ** The executor, call by call *)

(** The whole effect of one run of [_request]: the world after it, the call
    it dispatched, and its outcome. *)
Lemma request_call (self : Client) (method path : string) (signed : bool)
    (kw : kwargs) (w : World) :
  let run := _request self method path signed kw w in
  let merged := merged_kwargs self kw in
  let data := request_data self kw in
  let headers := match kw_headers merged with Some h => h | None => [] end in
  let full_path := _create_path self path in
  let nonce := Z.quot (clock w (clock_reads w)) 1000 in
  let is_get := String.eqb method "get" in
  let call :=
    {| hc_method := method;
       hc_uri := _create_uri self full_path;
       hc_timeout := kw_timeout merged;
       hc_data := if nonempty data && is_get then None
                  else if signed && negb is_get && nonempty data
                       then Some (Body (compact_json_dict data))
                       else Some (Form data);
       hc_headers := if signed
                     then sign_headers self nonce method full_path data headers
                     else headers;
       hc_params := if nonempty data && is_get then Some data
                    else kw_params merged;
       hc_extra := kw_extra merged |} in
  snd run
  = {| clock := clock w;
       clock_reads := if signed then S (clock_reads w) else clock_reads w;
       uuid_supply := uuid_supply w;
       uuid_draws := uuid_draws w;
       server := server w;
       sent := (sent w ++ [call])%list |}
  /\ fst run
     = match server w (sent w ++ [call])%list with
       | Answer r => _handle_response r
       | Failure msg => Raise (RequestsError msg)
       end.
Proof.
  cbv zeta. unfold _request, request_data.
  set (merged := merged_kwargs self kw).
  unfold bind, ret, lift, time_ms, session_call, read_clock, bind, ret.
  destruct signed; cbn [fst snd sent server clock clock_reads uuid_supply uuid_draws];
    match goal with
    | |- context [server w ?log] => destruct (server w log) as [r | msg]
    end;
    split; reflexivity.
Qed.

(** X1: a run of [_request] dispatches exactly one call, whatever comes back:
    the log grows by that call, no identifier is drawn, the clock is read
    once when the call is signed and not at all otherwise, and the outcome is
    what the handler makes of the server's reply to that one call, or the
    failure of the transport; nothing is retried. *)
Theorem request_dispatches_once (self : Client) (method path : string)
    (signed : bool) (kw : kwargs) (w : World) :
  let run := _request self method path signed kw w in
  exists call : http_call,
    sent (snd run) = (sent w ++ [call])%list
    /\ hc_method call = method
    /\ uuid_draws (snd run) = uuid_draws w
    /\ clock_reads (snd run) = (if signed then S (clock_reads w) else clock_reads w)
    /\ server (snd run) = server w
    /\ fst run
       = match server w (sent w ++ [call])%list with
         | Answer r => _handle_response r
         | Failure msg => Raise (RequestsError msg)
         end.
Proof.
  cbv zeta.
  destruct (request_call self method path signed kw w) as [Hw Hout].
  cbv zeta in Hw, Hout. rewrite Hw.
  eexists. split; [reflexivity |].
  repeat split. exact Hout.
Qed.

(** X2: a signed run stamps the call with the clock reading in milliseconds
    under KC-API-TIMESTAMP and, under KC-API-SIGN, with the signature made
    with that same reading; every other header is as the keyword arguments
    had it. *)
Theorem signed_request_headers (self : Client) (method path : string)
    (kw : kwargs) (w : World) :
  let run := _request self method path true kw w in
  let nonce := Z.quot (clock w (clock_reads w)) 1000 in
  let before :=
    match kw_headers (merged_kwargs self kw) with Some h => h | None => [] end in
  exists call : http_call,
    sent (snd run) = (sent w ++ [call])%list
    /\ dict_get "KC-API-TIMESTAMP" (hc_headers call) = Some (HStr (str_of_Z nonce))
    /\ dict_get "KC-API-SIGN" (hc_headers call)
       = Some (HBytes (_generate_signature self nonce method
                         (_create_path self path) (request_data self kw)))
    /\ (forall k, k <> "KC-API-TIMESTAMP" -> k <> "KC-API-SIGN" ->
        dict_get k (hc_headers call) = dict_get k before).
Proof.
  cbv zeta.
  destruct (request_call self method path true kw w) as [Hw _].
  cbv zeta in Hw. rewrite Hw.
  eexists. split; [reflexivity |].
  cbn [hc_headers sent].
  split; [apply sign_headers_timestamp |].
  split; [apply sign_headers_sign |].
  intros k Hts Hsig. unfold sign_headers.
  rewrite !dict_get_set_other by congruence. reflexivity.
Qed.

(** X3: an unsigned run does not read the clock and adds no header: when
    neither the caller nor [requests_params] passes headers, the call goes
    out with none from here, so without timestamp and without signature. *)
Theorem unsigned_request_adds_no_header (self : Client) (method path : string)
    (kw : kwargs) (w : World)
    (Hnone : kw_headers (merged_kwargs self kw) = None) :
  let run := _request self method path false kw w in
  exists call : http_call,
    sent (snd run) = (sent w ++ [call])%list
    /\ hc_headers call = []
    /\ clock_reads (snd run) = clock_reads w.
Proof.
  cbv zeta.
  destruct (request_call self method path false kw w) as [Hw _].
  cbv zeta in Hw. rewrite Hw.
  eexists. split; [reflexivity |].
  cbn [hc_headers clock_reads]. rewrite Hnone. split; reflexivity.
Qed.

Lemma unsigned_request_adds_no_header_witness :
  kw_headers (merged_kwargs demo_client no_kwargs) = None
  /\ exists call : http_call,
       sent (snd (_request demo_client "get" "symbols" false no_kwargs demo_world))
       = [call]
       /\ hc_headers call = [].
Proof.
  assert (H : kw_headers (merged_kwargs demo_client no_kwargs) = None)
    by reflexivity.
  split; [exact H |].
  destruct (unsigned_request_adds_no_header demo_client "get" "symbols" no_kwargs
              demo_world H) as (call & Hsent & Hh & _).
  exists call. split; assumption.
Defined.

(** X4: a signed GET with data sends the data as query parameters, passes no
    [data] keyword, and signs timestamp, GET, the versioned path, a question
    mark and the [key=value] items of those very parameters, in their
    order. *)
Theorem signed_get_signs_its_params (self : Client) (path : string)
    (kw : kwargs) (w : World)
    (Hwf : wf_dict (request_data self kw)) (Hdata : request_data self kw <> []) :
  let run := _request self "get" path true kw w in
  let data := request_data self kw in
  let nonce := Z.quot (clock w (clock_reads w)) 1000 in
  exists call : http_call,
    sent (snd run) = (sent w ++ [call])%list
    /\ hc_params call = Some data
    /\ hc_data call = None
    /\ dict_get "KC-API-SIGN" (hc_headers call)
       = Some (HBytes
                 (Base64.b64encode
                    (Hmac.sha256_digest
                       (encode_utf8 (API_SECRET self))
                       (encode_utf8
                          (str_of_Z nonce ++ "GET" ++ _create_path self path ++ "?"
                             ++ SignerSpec.query_string data))))).
Proof.
  cbv zeta.
  destruct (request_call self "get" path true kw w) as [Hw _].
  cbv zeta in Hw. rewrite Hw.
  assert (Hne : nonempty (request_data self kw) = true).
  { destruct (request_data self kw); [contradiction | reflexivity]. }
  eexists. split; [reflexivity |].
  cbn [hc_params hc_data hc_headers]. rewrite Hne. simpl.
  repeat split.
  rewrite sign_headers_sign. unfold _generate_signature, sig_str.
  rewrite (sig_locals_spec "get" _ _ Hwf). simpl.
  destruct (request_data self kw) as [| kv d]; [contradiction |].
  now rewrite append_empty_r.
Qed.

Lemma signed_get_signs_its_params_witness :
  wf_dict (request_data demo_client (data_kwarg [("currency", PStr "BTC")]))
  /\ request_data demo_client (data_kwarg [("currency", PStr "BTC")]) <> []
  /\ exists call : http_call,
       sent (snd (_request demo_client "get" "deposit-addresses" true
                    (data_kwarg [("currency", PStr "BTC")]) demo_world))
       = [call]
       /\ hc_params call = Some [("currency", PStr "BTC")]
       /\ hc_data call = None.
Proof.
  assert (Hwf : wf_dict (request_data demo_client
                           (data_kwarg [("currency", PStr "BTC")]))).
  { unfold wf_dict. simpl. repeat constructor. simpl. intuition. }
  assert (Hne : request_data demo_client (data_kwarg [("currency", PStr "BTC")]) <> [])
    by discriminate.
  split; [exact Hwf |]. split; [exact Hne |].
  destruct (signed_get_signs_its_params demo_client "deposit-addresses"
              (data_kwarg [("currency", PStr "BTC")]) demo_world Hwf Hne)
    as (call & Hsent & Hparams & Hdata & _).
  exists call. repeat split; assumption.
Defined.

Lemma merged_timeout (self : Client) (kw : kwargs) :
  kw_timeout (merged_kwargs self kw)
  = match _requests_params self with
    | Some rp =>
        match kw_timeout rp with
        | Some t => Some t
        | None => Some (PInt 10)
        end
    | None => Some (PInt 10)
    end.
Proof.
  unfold merged_kwargs.
  destruct (_requests_params self) as [rp |]; [| reflexivity].
  destruct (kwargs_nonempty rp) eqn:Hne.
  - simpl. destruct (kw_timeout rp); reflexivity.
  - unfold kwargs_nonempty in Hne. simpl.
    destruct (kw_timeout rp); [discriminate | reflexivity].
Qed.

(** X5: the timeout of every call is the one of the client's
    [requests_params] when they have one, and 10 seconds otherwise; a
    timeout among the caller's keyword arguments is never used. *)
Theorem request_timeout (self : Client) (method path : string) (signed : bool)
    (kw : kwargs) (w : World) :
  exists call : http_call,
    sent (snd (_request self method path signed kw w)) = (sent w ++ [call])%list
    /\ hc_timeout call
       = match _requests_params self with
         | Some rp =>
             match kw_timeout rp with
             | Some t => Some t
             | None => Some (PInt 10)
             end
         | None => Some (PInt 10)
         end.
Proof.
  destruct (request_call self method path signed kw w) as [Hw _].
  cbv zeta in Hw. rewrite Hw.
  eexists. split; [reflexivity |].
  cbn [hc_timeout]. apply merged_timeout.
Qed.

(** X6: a [data] entry in the client's [requests_params] takes the place of
    the data of every call: whatever the caller passes, the executor sends
    the entry of [requests_params] and, on a signed call, signs it. *)
Theorem requests_params_data_wins (self : Client) (rp : kwargs) (forced : dict)
    (method path : string) (signed : bool) (kw : kwargs) (w : World)
    (Hrp : _requests_params self = Some rp) (Hforced : kw_data rp = Some forced) :
  let is_get := String.eqb method "get" in
  let nonce := Z.quot (clock w (clock_reads w)) 1000 in
  request_data self kw = forced
  /\ exists call : http_call,
       sent (snd (_request self method path signed kw w)) = (sent w ++ [call])%list
       /\ hc_data call
          = (if nonempty forced && is_get then None
             else if signed && negb is_get && nonempty forced
                  then Some (Body (compact_json_dict forced))
                  else Some (Form forced))
       /\ (nonempty forced && is_get = true -> hc_params call = Some forced)
       /\ (signed = true ->
           dict_get "KC-API-SIGN" (hc_headers call)
           = Some (HBytes (_generate_signature self nonce method
                             (_create_path self path) forced))).
Proof.
  cbv zeta.
  assert (Hdata : request_data self kw = forced).
  { unfold request_data, merged_kwargs. rewrite Hrp.
    assert (Hne : kwargs_nonempty rp = true).
    { unfold kwargs_nonempty. rewrite Hforced. destruct (kw_timeout rp); reflexivity. }
    rewrite Hne. simpl. now rewrite Hforced. }
  split; [exact Hdata |].
  destruct (request_call self method path signed kw w) as [Hw _].
  cbv zeta in Hw. rewrite Hw, Hdata.
  eexists. split; [reflexivity |].
  cbn [hc_data hc_params hc_headers]. split; [reflexivity |].
  split; [intros ->; reflexivity |].
  intros ->. apply sign_headers_sign.
Qed.

Lemma requests_params_data_wins_witness :
  _requests_params
    (new_Client "key" "s3cr3t" "pass" false
       (Some (mk_kwargs None (Some [("forced", PInt 1)]) None None [])))
  = Some (mk_kwargs None (Some [("forced", PInt 1)]) None None [])
  /\ exists call : http_call,
       sent (snd (_request
                    (new_Client "key" "s3cr3t" "pass" false
                       (Some (mk_kwargs None (Some [("forced", PInt 1)]) None None [])))
                    "post" "accounts" true (data_kwarg [("currency", PStr "BTC")])
                    demo_world))
       = [call]
       /\ hc_data call = Some (Body (compact_json_dict [("forced", PInt 1)]))
       /\ dict_get "KC-API-SIGN" (hc_headers call)
          = Some (HBytes
                    (_generate_signature
                       (new_Client "key" "s3cr3t" "pass" false
                          (Some (mk_kwargs None (Some [("forced", PInt 1)]) None None [])))
                       1234567890000 "post" "/api/v1/accounts" [("forced", PInt 1)])).
Proof.
  split; [reflexivity |].
  destruct (proj2 (requests_params_data_wins
                     (new_Client "key" "s3cr3t" "pass" false
                        (Some (mk_kwargs None (Some [("forced", PInt 1)]) None None [])))
                     (mk_kwargs None (Some [("forced", PInt 1)]) None None [])
                     [("forced", PInt 1)] "post" "accounts" true
                     (data_kwarg [("currency", PStr "BTC")]) demo_world
                     eq_refl eq_refl))
    as (call & Hsent & Hdata & _ & Hsig).
  exists call. split; [exact Hsent |]. split; [exact Hdata |].
  exact (Hsig eq_refl).
Defined.

(** X7: a client is bound at construction to one of two hosts, the sandbox
    when the flag is set and production otherwise, and every call goes to
    that host, the version prefix and the endpoint's path, joined as they
    are. *)
Theorem request_uri (api_key api_secret passphrase : string) (sandbox : bool)
    (requests_params : option kwargs) (method path : string) (signed : bool)
    (kw : kwargs) (w : World) :
  let self := new_Client api_key api_secret passphrase sandbox requests_params in
  exists call : http_call,
    sent (snd (_request self method path signed kw w)) = (sent w ++ [call])%list
    /\ hc_uri call
       = (if sandbox then "https://openapi-sandbox.kucoin.com"
          else "https://openapi-v2.kucoin.com") ++ "/api/v1/" ++ path.
Proof.
  cbv zeta.
  match goal with
  | |- context [_request ?c _ _ _ _ _] =>
      destruct (request_call c method path signed kw w) as [Hw _]
  end.
  cbv zeta in Hw. rewrite Hw.
  eexists. split; [reflexivity |].
  destruct sandbox; reflexivity.
Qed.

(** ** The handler on envelopes of every shape *)

Lemma existsb_json_eq_str (key : string) (l : list json) :
  existsb (fun x => json_eq_str x key) l = true <-> In (JStr key) l.
Proof.
  rewrite existsb_exists. split.
  - intros (x & Hin & Heq). destruct x; try discriminate.
    simpl in Heq. apply String.eqb_eq in Heq. now subst.
  - intros Hin. exists (JStr key). split; [exact Hin |].
    simpl. apply String.eqb_refl.
Qed.

(** X8: whatever the response, an exception that leaves the handler is the
    API exception carrying that response, the request exception carrying its
    text, or a [TypeError]; the guarded lookups never end in [KeyError]. *)
Theorem handle_response_exceptions (r : response) (e : exn)
    (Hraise : _handle_response r = Raise e) :
  e = KucoinAPIException r
  \/ e = KucoinRequestException ("Invalid Response: " ++ text r)
  \/ exists msg, e = TypeError msg.
Proof.
  revert Hraise.
  unfold _handle_response, obind, json_contains, json_getitem, dict_mem.
  destruct (negb (prefix "2" (str_of_Z (status_code r))));
    [intros H; inversion H; auto |].
  destruct (json_body r) as [res |]; [| intros H; inversion H; auto].
  destruct res;
    repeat match goal with
           | |- context [match dict_get ?k ?o with _ => _ end] =>
               destruct (dict_get k o) eqn:?
           | |- context [if ?b then _ else _] => destruct b eqn:?
           end;
    intros H; inversion H; subst; eauto.
Qed.

Lemma handle_response_exceptions_witness :
  _handle_response (mk_response 500 "oops" None)
  = Raise (KucoinAPIException (mk_response 500 "oops" None))
  /\ (KucoinAPIException (mk_response 500 "oops" None)
      = KucoinAPIException (mk_response 500 "oops" None)
      \/ KucoinAPIException (mk_response 500 "oops" None)
         = KucoinRequestException
             ("Invalid Response: " ++ text (mk_response 500 "oops" None))
      \/ exists msg, KucoinAPIException (mk_response 500 "oops" None) = TypeError msg).
Proof.
  assert (H : _handle_response (mk_response 500 "oops" None)
              = Raise (KucoinAPIException (mk_response 500 "oops" None)))
    by reflexivity.
  split; [exact H |].
  exact (handle_response_exceptions _ _ H).
Defined.

(** X9: when the status passes the first test and the body decodes to
    [null], a boolean or a number, the handler ends in a [TypeError]: the
    membership test on such a value fails before anything is returned, and
    neither of the handler's own exceptions is raised. *)
Theorem handle_response_scalar_body (r : response) (res : json)
    (Hstatus : prefix "2" (str_of_Z (status_code r)) = true)
    (Hbody : json_body r = Some res)
    (Hscalar : match res with JNull | JBool _ | JNum _ => True | _ => False end) :
  exists msg, _handle_response r = Raise (TypeError msg).
Proof.
  unfold _handle_response. rewrite Hstatus, Hbody.
  destruct res; try contradiction; eexists; reflexivity.
Qed.

Lemma handle_response_scalar_body_witness :
  exists msg,
    _handle_response (mk_response 200 "true" (Some (JBool true)))
    = Raise (TypeError msg).
Proof.
  exact (handle_response_scalar_body (mk_response 200 "true" (Some (JBool true)))
           (JBool true) eq_refl eq_refl I).
Defined.

(** X10: when the status passes the first test and the body decodes to an
    array, the membership tests look among its elements: an array that has
    none of the texts code, success and data as an element is returned whole,
    and one that has the text code as an element ends in a [TypeError] at
    the lookup. *)
Theorem handle_response_array_body (r : response) (l : list json)
    (Hstatus : prefix "2" (str_of_Z (status_code r)) = true)
    (Hbody : json_body r = Some (JArr l)) :
  (~ In (JStr "code") l -> ~ In (JStr "success") l -> ~ In (JStr "data") l ->
   _handle_response r = Return (JArr l))
  /\ (In (JStr "code") l ->
      _handle_response r
      = Raise (TypeError "list indices must be integers or slices, not str")).
Proof.
  unfold _handle_response. rewrite Hstatus, Hbody. simpl.
  split.
  - intros Hc Hs Hd.
    rewrite <- existsb_json_eq_str in Hc, Hs, Hd.
    apply Bool.not_true_is_false in Hc, Hs, Hd.
    rewrite Hc. simpl. rewrite Hs. simpl. rewrite Hd. reflexivity.
  - intros Hc. apply existsb_json_eq_str in Hc. rewrite Hc. reflexivity.
Qed.

Lemma handle_response_array_body_witness :
  _handle_response (mk_response 200 "[1]" (Some (JArr [JNum 1])))
  = Return (JArr [JNum 1]).
Proof.
  refine (proj1 (handle_response_array_body
                   (mk_response 200 "[1]" (Some (JArr [JNum 1]))) [JNum 1]
                   eq_refl eq_refl) _ _ _);
    simpl; intros [H | []]; discriminate H.
Defined.

(** ** Endpoints: what each one dispatches *)

Lemma request_data_none (self : Client) :
  no_data_override self -> request_data self no_kwargs = [].
Proof.
  unfold no_data_override, request_data, merged_kwargs.
  destruct (_requests_params self) as [rp |]; [| reflexivity].
  intros Hrp. destruct (kwargs_nonempty rp); [| reflexivity].
  simpl. now rewrite Hrp.
Qed.

(** A signed GET whose data is known. *)
Lemma signed_get_call (self : Client) (path : string) (kw : kwargs) (data : dict)
    (w : World) :
  request_data self kw = data ->
  let run := _request self "get" path true kw w in
  let nonce := Z.quot (clock w (clock_reads w)) 1000 in
  exists call : http_call,
    sent (snd run) = (sent w ++ [call])%list
    /\ hc_method call = "get"
    /\ hc_uri call = API_URL self ++ "/api/v1/" ++ path
    /\ hc_data call = (if nonempty data then None else Some (Form []))
    /\ (data <> [] -> hc_params call = Some data)
    /\ dict_get "KC-API-SIGN" (hc_headers call)
       = Some (HBytes (_generate_signature self nonce "get" ("/api/v1/" ++ path) data)).
Proof.
  intros Hdata. cbv zeta.
  destruct (request_call self "get" path true kw w) as [Hw _].
  cbv zeta in Hw. rewrite Hw, Hdata.
  eexists. split; [reflexivity |].
  cbn [hc_method hc_uri hc_data hc_params hc_headers].
  split; [reflexivity |]. split; [reflexivity |].
  split; [destruct data; reflexivity |].
  split; [intros Hne; destruct data; [contradiction | reflexivity] |].
  apply sign_headers_sign.
Qed.

(** A signed call by another method whose data is known. *)
Lemma signed_body_call (self : Client) (method path : string) (kw : kwargs)
    (data : dict) (w : World) :
  String.eqb method "get" = false ->
  request_data self kw = data ->
  let run := _request self method path true kw w in
  let nonce := Z.quot (clock w (clock_reads w)) 1000 in
  exists call : http_call,
    sent (snd run) = (sent w ++ [call])%list
    /\ hc_method call = method
    /\ hc_uri call = API_URL self ++ "/api/v1/" ++ path
    /\ hc_data call
       = (if nonempty data then Some (Body (compact_json_dict data))
          else Some (Form []))
    /\ dict_get "KC-API-SIGN" (hc_headers call)
       = Some (HBytes (_generate_signature self nonce method ("/api/v1/" ++ path) data)).
Proof.
  intros Hget Hdata. cbv zeta.
  destruct (request_call self method path true kw w) as [Hw _].
  cbv zeta in Hw. rewrite Hw, Hdata, Hget.
  eexists. split; [reflexivity |].
  cbn [hc_method hc_uri hc_data hc_headers].
  split; [reflexivity |]. split; [reflexivity |].
  split; [destruct data; reflexivity |].
  apply sign_headers_sign.
Qed.

Lemma merged_params (self : Client) (kw : kwargs) :
  kw_params kw = None -> kw_params (merged_kwargs self kw) = default_params self.
Proof.
  unfold merged_kwargs, default_params. intros Hkw.
  destruct (_requests_params self) as [rp |]; [| exact Hkw].
  destruct (kwargs_nonempty rp) eqn:Hne; simpl.
  - rewrite Hkw. destruct (kw_params rp); reflexivity.
  - rewrite Hkw. unfold kwargs_nonempty in Hne.
    destruct (kw_timeout rp), (kw_data rp), (kw_headers rp), (kw_params rp);
      try discriminate; reflexivity.
Qed.

(** A signed GET whose data is known, with the parameters it carries in
    either case. *)
Lemma signed_get_call_params (self : Client) (path : string) (kw : kwargs)
    (data : dict) (w : World) :
  kw_params kw = None ->
  request_data self kw = data ->
  let run := _request self "get" path true kw w in
  let nonce := Z.quot (clock w (clock_reads w)) 1000 in
  exists call : http_call,
    sent (snd run) = (sent w ++ [call])%list
    /\ hc_method call = "get"
    /\ hc_uri call = API_URL self ++ "/api/v1/" ++ path
    /\ hc_data call = (if nonempty data then None else Some (Form []))
    /\ hc_params call = (if nonempty data then Some data else default_params self)
    /\ dict_get "KC-API-SIGN" (hc_headers call)
       = Some (HBytes (_generate_signature self nonce "get" ("/api/v1/" ++ path) data)).
Proof.
  intros Hkw Hdata. cbv zeta.
  destruct (request_call self "get" path true kw w) as [Hw _].
  cbv zeta in Hw. rewrite Hw, Hdata, (merged_params self kw Hkw).
  eexists. split; [reflexivity |].
  cbn [hc_method hc_uri hc_data hc_params hc_headers].
  split; [reflexivity |]. split; [reflexivity |].
  split; [destruct data; reflexivity |].
  split; [destruct data; reflexivity |].
  apply sign_headers_sign.
Qed.

(** Shows that the data an endpoint assembles by conditional assignments is
    the list of the items that pass the test, then hands the goal to the
    lemma for the call. *)
Ltac assembled_data items :=
  match goal with
  | |- context [data_kwarg ?d] =>
      replace d with items
        by (unfold truthy_items, not_None_items; simpl;
            repeat match goal with
                   | |- context [truthy ?v] => destruct (truthy v)
                   | |- context [is_not_None ?v] => destruct (is_not_None v)
                   end;
            reflexivity)
  end.

(** X11: [get_orders] sends as query parameters exactly the filters that are
    true for Python's [if], under the keys symbol, status, side, type,
    startAt, endAt, page, pageSize and in that order; a filter that is
    [None], zero or empty text is left out.  With no filter left the call
    passes an empty data mapping and no parameters of its own: it carries the
    [params] entry of [requests_params] when there is one, and none
    otherwise.  The signature covers the filters that are sent. *)
Theorem get_orders_filters (self : Client)
    (symbol status side order_type start end_ page limit : pyval) (w : World)
    (Hself : no_data_override self) :
  let run := get_orders self symbol status side order_type start end_ page limit w in
  let data :=
    truthy_items
      [("symbol", symbol); ("status", status); ("side", side); ("type", order_type);
       ("startAt", start); ("endAt", end_); ("page", page); ("pageSize", limit)] in
  let nonce := Z.quot (clock w (clock_reads w)) 1000 in
  exists call : http_call,
    sent (snd run) = (sent w ++ [call])%list
    /\ hc_method call = "get"
    /\ hc_uri call = API_URL self ++ "/api/v1/orders"
    /\ hc_data call = (if nonempty data then None else Some (Form []))
    /\ hc_params call = (if nonempty data then Some data else default_params self)
    /\ dict_get "KC-API-SIGN" (hc_headers call)
       = Some (HBytes (_generate_signature self nonce "get" "/api/v1/orders" data)).
Proof.
  cbv zeta. unfold get_orders, _get.
  assembled_data
    (truthy_items
       [("symbol", symbol); ("status", status); ("side", side); ("type", order_type);
        ("startAt", start); ("endAt", end_); ("page", page); ("pageSize", limit)]).
  apply (signed_get_call_params self "orders"); [reflexivity |].
  now apply request_data_kwarg.
Qed.

Lemma get_orders_filters_witness :
  no_data_override demo_client
  /\ exists call : http_call,
       sent (snd (get_orders demo_client (PStr "KCS-BTC") PNone (PStr "buy") PNone
                    (PInt 0) PNone (PInt 2) PNone demo_world))
       = [call]
       /\ hc_params call
          = Some [("symbol", PStr "KCS-BTC"); ("side", PStr "buy"); ("page", PInt 2)].
Proof.
  assert (Hself : no_data_override demo_client) by exact I.
  split; [exact Hself |].
  destruct (get_orders_filters demo_client (PStr "KCS-BTC") PNone (PStr "buy") PNone
              (PInt 0) PNone (PInt 2) PNone demo_world Hself)
    as (call & Hsent & _ & _ & _ & Hparams & _).
  exists call. split; [exact Hsent | exact Hparams].
Defined.

(** On a client whose [requests_params] carry [params], a listing without
    filters goes out with those. *)
Example get_orders_default_params :
  map hc_params
    (sent (snd (get_orders
                  (new_Client "key" "s3cr3t" "pass" false
                     (Some (mk_kwargs None None None (Some [("x", PInt 1)]) [])))
                  PNone PNone PNone PNone PNone PNone PNone PNone demo_world)))
  = [Some [("x", PInt 1)]].
Proof. vm_compute. reflexivity. Qed.

(** X12: [get_historical_orders] sends as query parameters exactly the
    filters that are true for Python's [if], under the keys symbol, side,
    startAt, endAt, page, pageSize and in that order, and signs that
    mapping. *)
Theorem get_historical_orders_filters (self : Client)
    (symbol side start end_ page limit : pyval) (w : World)
    (Hself : no_data_override self) :
  let run := get_historical_orders self symbol side start end_ page limit w in
  let data :=
    truthy_items
      [("symbol", symbol); ("side", side); ("startAt", start); ("endAt", end_);
       ("page", page); ("pageSize", limit)] in
  let nonce := Z.quot (clock w (clock_reads w)) 1000 in
  exists call : http_call,
    sent (snd run) = (sent w ++ [call])%list
    /\ hc_method call = "get"
    /\ hc_uri call = API_URL self ++ "/api/v1/hist-orders"
    /\ hc_data call = (if nonempty data then None else Some (Form []))
    /\ (data <> [] -> hc_params call = Some data)
    /\ dict_get "KC-API-SIGN" (hc_headers call)
       = Some (HBytes (_generate_signature self nonce "get" "/api/v1/hist-orders" data)).
Proof.
  cbv zeta. unfold get_historical_orders, _get.
  assembled_data
    (truthy_items
       [("symbol", symbol); ("side", side); ("startAt", start); ("endAt", end_);
        ("page", page); ("pageSize", limit)]).
  apply (signed_get_call self "hist-orders"). now apply request_data_kwarg.
Qed.

Lemma get_historical_orders_filters_witness :
  no_data_override demo_client
  /\ exists call : http_call,
       sent (snd (get_historical_orders demo_client (PStr "KCS-BTC") (PStr "sell")
                    PNone (PInt 1550000000) (PInt 0) (PInt 25) demo_world))
       = [call]
       /\ hc_data call = None
       /\ hc_params call
          = Some [("symbol", PStr "KCS-BTC"); ("side", PStr "sell");
                  ("endAt", PInt 1550000000); ("pageSize", PInt 25)]
       /\ dict_get "KC-API-SIGN" (hc_headers call)
          = Some (HBytes
                    (_generate_signature demo_client 1234567890000 "get"
                       "/api/v1/hist-orders"
                       [("symbol", PStr "KCS-BTC"); ("side", PStr "sell");
                        ("endAt", PInt 1550000000); ("pageSize", PInt 25)])).
Proof.
  assert (Hself : no_data_override demo_client) by exact I.
  split; [exact Hself |].
  destruct (get_historical_orders_filters demo_client (PStr "KCS-BTC") (PStr "sell")
              PNone (PInt 1550000000) (PInt 0) (PInt 25) demo_world Hself)
    as (call & Hsent & _ & _ & Hdata & Hparams & Hsig).
  exists call. split; [exact Hsent |]. split; [exact Hdata |].
  split; [apply Hparams; discriminate | exact Hsig].
Defined.

(** X13: [get_fills] sends as query parameters exactly the filters that are
    true for Python's [if], under the keys orderId, symbol, side, type,
    startAt, endAt, page, pageSize and in that order, and signs that
    mapping. *)
Theorem get_fills_filters (self : Client)
    (order_id symbol side order_type start end_ page limit : pyval) (w : World)
    (Hself : no_data_override self) :
  let run := get_fills self order_id symbol side order_type start end_ page limit w in
  let data :=
    truthy_items
      [("orderId", order_id); ("symbol", symbol); ("side", side);
       ("type", order_type); ("startAt", start); ("endAt", end_); ("page", page);
       ("pageSize", limit)] in
  let nonce := Z.quot (clock w (clock_reads w)) 1000 in
  exists call : http_call,
    sent (snd run) = (sent w ++ [call])%list
    /\ hc_method call = "get"
    /\ hc_uri call = API_URL self ++ "/api/v1/fills"
    /\ hc_data call = (if nonempty data then None else Some (Form []))
    /\ (data <> [] -> hc_params call = Some data)
    /\ dict_get "KC-API-SIGN" (hc_headers call)
       = Some (HBytes (_generate_signature self nonce "get" "/api/v1/fills" data)).
Proof.
  cbv zeta. unfold get_fills, _get.
  assembled_data
    (truthy_items
       [("orderId", order_id); ("symbol", symbol); ("side", side);
        ("type", order_type); ("startAt", start); ("endAt", end_); ("page", page);
        ("pageSize", limit)]).
  apply (signed_get_call self "fills"). now apply request_data_kwarg.
Qed.

Lemma get_fills_filters_witness :
  no_data_override demo_client
  /\ exists call : http_call,
       sent (snd (get_fills demo_client (PStr "5c35c02703aa673ceec2a168") PNone PNone
                    PNone PNone PNone PNone (PInt 50) demo_world))
       = [call]
       /\ hc_params call
          = Some [("orderId", PStr "5c35c02703aa673ceec2a168"); ("pageSize", PInt 50)].
Proof.
  assert (Hself : no_data_override demo_client) by exact I.
  split; [exact Hself |].
  destruct (get_fills_filters demo_client (PStr "5c35c02703aa673ceec2a168") PNone
              PNone PNone PNone PNone PNone (PInt 50) demo_world Hself)
    as (call & Hsent & _ & _ & _ & Hparams & _).
  exists call. split; [exact Hsent |].
  apply Hparams. discriminate.
Defined.

(** X14: [get_deposits] and [get_withdrawals] assemble the same parameters
    from the same arguments: the filters that are true for Python's [if],
    under the keys currency, status, startAt, endAt, pageSize, page, the page
    size before the page; they differ in the path alone. *)
Theorem get_deposits_withdrawals_filters (self : Client)
    (currency status start end_ page limit : pyval) (w : World)
    (Hself : no_data_override self) :
  let data :=
    truthy_items
      [("currency", currency); ("status", status); ("startAt", start);
       ("endAt", end_); ("pageSize", limit); ("page", page)] in
  let nonce := Z.quot (clock w (clock_reads w)) 1000 in
  let sends (run : outcome json * World) (path : string) :=
    exists call : http_call,
      sent (snd run) = (sent w ++ [call])%list
      /\ hc_method call = "get"
      /\ hc_uri call = API_URL self ++ "/api/v1/" ++ path
      /\ hc_data call = (if nonempty data then None else Some (Form []))
      /\ (data <> [] -> hc_params call = Some data)
      /\ dict_get "KC-API-SIGN" (hc_headers call)
         = Some (HBytes (_generate_signature self nonce "get" ("/api/v1/" ++ path)
                           data)) in
  sends (get_deposits self currency status start end_ page limit w) "deposits"
  /\ sends (get_withdrawals self currency status start end_ page limit w)
       "withdrawals".
Proof.
  cbv zeta. split.
  - unfold get_deposits, _get.
    assembled_data
      (truthy_items
         [("currency", currency); ("status", status); ("startAt", start);
          ("endAt", end_); ("pageSize", limit); ("page", page)]).
    apply (signed_get_call self "deposits"). now apply request_data_kwarg.
  - unfold get_withdrawals, _get.
    assembled_data
      (truthy_items
         [("currency", currency); ("status", status); ("startAt", start);
          ("endAt", end_); ("pageSize", limit); ("page", page)]).
    apply (signed_get_call self "withdrawals"). now apply request_data_kwarg.
Qed.

Lemma get_deposits_withdrawals_filters_witness :
  no_data_override demo_client
  /\ exists call : http_call,
       sent (snd (get_deposits demo_client (PStr "BTC") PNone PNone PNone (PInt 1)
                    (PInt 20) demo_world))
       = [call]
       /\ hc_params call
          = Some [("currency", PStr "BTC"); ("pageSize", PInt 20); ("page", PInt 1)].
Proof.
  assert (Hself : no_data_override demo_client) by exact I.
  split; [exact Hself |].
  destruct (proj1 (get_deposits_withdrawals_filters demo_client (PStr "BTC") PNone
                     PNone PNone (PInt 1) (PInt 20) demo_world Hself))
    as (call & Hsent & _ & _ & _ & Hparams & _).
  exists call. split; [exact Hsent |].
  apply Hparams. discriminate.
Defined.

(** X15: [get_account_activity] and [get_account_holds] put the account
    identifier into the path as [str] renders it, and send as query
    parameters the filters that are true for Python's [if]: startAt, endAt,
    currentPage, pageSize for the ledgers, currentPage, pageSize for the
    holds. *)
Theorem get_account_pages (self : Client)
    (account_id start end_ page limit : pyval) (w : World)
    (Hself : no_data_override self) :
  let nonce := Z.quot (clock w (clock_reads w)) 1000 in
  let sends (run : outcome json * World) (path : string) (data : dict) :=
    exists call : http_call,
      sent (snd run) = (sent w ++ [call])%list
      /\ hc_method call = "get"
      /\ hc_uri call = API_URL self ++ "/api/v1/" ++ path
      /\ hc_data call = (if nonempty data then None else Some (Form []))
      /\ (data <> [] -> hc_params call = Some data)
      /\ dict_get "KC-API-SIGN" (hc_headers call)
         = Some (HBytes (_generate_signature self nonce "get" ("/api/v1/" ++ path)
                           data)) in
  sends (get_account_activity self account_id start end_ page limit w)
    ("accounts/" ++ py_str account_id ++ "/ledgers")
    (truthy_items
       [("startAt", start); ("endAt", end_); ("currentPage", page);
        ("pageSize", limit)])
  /\ sends (get_account_holds self account_id page limit w)
       ("accounts/" ++ py_str account_id ++ "/holds")
       (truthy_items [("currentPage", page); ("pageSize", limit)]).
Proof.
  cbv zeta. split.
  - unfold get_account_activity, _get.
    assembled_data
      (truthy_items
         [("startAt", start); ("endAt", end_); ("currentPage", page);
          ("pageSize", limit)]).
    apply (signed_get_call self ("accounts/" ++ py_str account_id ++ "/ledgers")).
    now apply request_data_kwarg.
  - unfold get_account_holds, _get.
    assembled_data (truthy_items [("currentPage", page); ("pageSize", limit)]).
    apply (signed_get_call self ("accounts/" ++ py_str account_id ++ "/holds")).
    now apply request_data_kwarg.
Qed.

Lemma get_account_pages_witness :
  no_data_override demo_client
  /\ exists call : http_call,
       sent (snd (get_account_holds demo_client (PStr "5bd6e9216d99522a52e458d6")
                    (PInt 2) PNone demo_world))
       = [call]
       /\ hc_uri call
          = "https://openapi-v2.kucoin.com/api/v1/accounts/5bd6e9216d99522a52e458d6/holds"
       /\ hc_params call = Some [("currentPage", PInt 2)].
Proof.
  assert (Hself : no_data_override demo_client) by exact I.
  split; [exact Hself |].
  destruct (proj2 (get_account_pages demo_client (PStr "5bd6e9216d99522a52e458d6")
                     PNone PNone (PInt 2) PNone demo_world Hself))
    as (call & Hsent & _ & Huri & _ & Hparams & _).
  exists call. split; [exact Hsent |]. split; [exact Huri |].
  apply Hparams. discriminate.
Defined.

(** X16: [create_withdrawal] posts as its body the compact JSON of currency,
    amount and address followed by those of memo, isInner and remark that
    are true for Python's [if]; an inner flag of [False] is left out, not
    sent as false.  The signature covers that mapping. *)
Theorem create_withdrawal_body (self : Client)
    (currency amount address memo is_inner remark : pyval) (w : World)
    (Hself : no_data_override self) :
  let run := create_withdrawal self currency amount address memo is_inner remark w in
  let data :=
    ([("currency", currency); ("amount", amount); ("address", address)]
       ++ truthy_items [("memo", memo); ("isInner", is_inner); ("remark", remark)])%list in
  let nonce := Z.quot (clock w (clock_reads w)) 1000 in
  exists call : http_call,
    sent (snd run) = (sent w ++ [call])%list
    /\ hc_method call = "post"
    /\ hc_uri call = API_URL self ++ "/api/v1/withdrawals"
    /\ hc_data call = Some (Body (compact_json_dict data))
    /\ dict_get "KC-API-SIGN" (hc_headers call)
       = Some (HBytes (_generate_signature self nonce "post" "/api/v1/withdrawals"
                         data)).
Proof.
  cbv zeta. unfold create_withdrawal, _post.
  assembled_data
    ([("currency", currency); ("amount", amount); ("address", address)]
       ++ truthy_items [("memo", memo); ("isInner", is_inner); ("remark", remark)])%list.
  match goal with
  | |- context [data_kwarg ?d] =>
      destruct (signed_body_call self "post" "withdrawals" (data_kwarg d) d w
                  eq_refl (request_data_kwarg self d Hself))
        as (call & Hsent & Hm & Huri & Hdata & Hsig)
  end.
  exists call.
  split; [exact Hsent |]. split; [exact Hm |]. split; [exact Huri |].
  split; [exact Hdata | exact Hsig].
Qed.

Lemma create_withdrawal_body_witness :
  no_data_override demo_client
  /\ exists call : http_call,
       sent (snd (create_withdrawal demo_client (PStr "BTC") (PStr "0.5")
                    (PStr "1BoatSLRHtKNngkdXEeobR76b53LETtpyT") PNone (PBool false)
                    PNone demo_world))
       = [call]
       /\ hc_data call
          = Some (Body (compact_json_dict
                          [("currency", PStr "BTC"); ("amount", PStr "0.5");
                           ("address", PStr "1BoatSLRHtKNngkdXEeobR76b53LETtpyT")])).
Proof.
  assert (Hself : no_data_override demo_client) by exact I.
  split; [exact Hself |].
  destruct (create_withdrawal_body demo_client (PStr "BTC") (PStr "0.5")
              (PStr "1BoatSLRHtKNngkdXEeobR76b53LETtpyT") PNone (PBool false) PNone
              demo_world Hself)
    as (call & Hsent & _ & _ & Hdata & _).
  exists call. split; [exact Hsent | exact Hdata].
Defined.

Lemma merged_headers_none (self : Client) (kw : kwargs) :
  no_headers_override self -> kw_headers kw = None ->
  kw_headers (merged_kwargs self kw) = None.
Proof.
  unfold no_headers_override, merged_kwargs.
  destruct (_requests_params self) as [rp |]; [| intros _ H; exact H].
  intros Hrp Hkw. destruct (kwargs_nonempty rp); [| exact Hkw].
  simpl. now rewrite Hrp.
Qed.

(** An unsigned GET whose data is known, on a client that passes no headers
    of its own. *)
Lemma public_get_call (self : Client) (path : string) (kw : kwargs) (data : dict)
    (w : World) :
  no_headers_override self -> kw_headers kw = None ->
  request_data self kw = data ->
  let run := _request self "get" path false kw w in
  exists call : http_call,
    sent (snd run) = (sent w ++ [call])%list
    /\ hc_method call = "get"
    /\ hc_uri call = API_URL self ++ "/api/v1/" ++ path
    /\ hc_headers call = []
    /\ hc_data call = (if nonempty data then None else Some (Form []))
    /\ (data <> [] -> hc_params call = Some data)
    /\ clock_reads (snd run) = clock_reads w.
Proof.
  intros Hh Hkw Hdata. cbv zeta.
  destruct (request_call self "get" path false kw w) as [Hw _].
  cbv zeta in Hw. rewrite Hw, Hdata, (merged_headers_none self kw Hh Hkw).
  eexists. split; [reflexivity |].
  cbn [hc_method hc_uri hc_data hc_params hc_headers clock_reads].
  split; [reflexivity |]. split; [reflexivity |]. split; [reflexivity |].
  split; [destruct data; reflexivity |].
  split; [intros Hne; destruct data; [contradiction | reflexivity] | reflexivity].
Qed.

(** An unsigned GET whose data is known, with the parameters it carries in
    either case. *)
Lemma public_get_call_params (self : Client) (path : string) (kw : kwargs)
    (data : dict) (w : World) :
  no_headers_override self -> kw_headers kw = None -> kw_params kw = None ->
  request_data self kw = data ->
  let run := _request self "get" path false kw w in
  exists call : http_call,
    sent (snd run) = (sent w ++ [call])%list
    /\ hc_method call = "get"
    /\ hc_uri call = API_URL self ++ "/api/v1/" ++ path
    /\ hc_headers call = []
    /\ hc_data call = (if nonempty data then None else Some (Form []))
    /\ hc_params call = (if nonempty data then Some data else default_params self)
    /\ clock_reads (snd run) = clock_reads w.
Proof.
  intros Hh Hkw Hkp Hdata. cbv zeta.
  destruct (request_call self "get" path false kw w) as [Hw _].
  cbv zeta in Hw.
  rewrite Hw, Hdata, (merged_headers_none self kw Hh Hkw), (merged_params self kw Hkp).
  eexists. split; [reflexivity |].
  cbn [hc_method hc_uri hc_data hc_params hc_headers clock_reads].
  split; [reflexivity |]. split; [reflexivity |]. split; [reflexivity |].
  split; [destruct data; reflexivity |].
  split; [destruct data; reflexivity | reflexivity].
Qed.

(** X17: [get_ticker] without symbol asks for all tickers with an empty
    data mapping and no parameters of its own (it carries the [params] entry
    of [requests_params] when there is one, and none otherwise); with a
    symbol, the empty text included, it asks the level-1 order book with that
    symbol as its one parameter.  Either way the call is unsigned: no header
    is added and the clock is not read. *)
Theorem get_ticker_paths (self : Client) (symbol : pyval) (w : World)
    (Hself : no_data_override self) (Hheaders : no_headers_override self) :
  let run := get_ticker self symbol w in
  exists call : http_call,
    sent (snd run) = (sent w ++ [call])%list
    /\ hc_method call = "get"
    /\ hc_headers call = []
    /\ clock_reads (snd run) = clock_reads w
    /\ match symbol with
       | PNone =>
           hc_uri call = API_URL self ++ "/api/v1/market/allTickers"
           /\ hc_params call = default_params self
           /\ hc_data call = Some (Form [])
       | _ =>
           hc_uri call = API_URL self ++ "/api/v1/market/orderbook/level1"
           /\ hc_params call = Some [("symbol", symbol)]
           /\ hc_data call = None
       end.
Proof.
  cbv zeta. unfold get_ticker, _get.
  destruct symbol; cbn [is_not_None];
    match goal with
    | |- context [_request self "get" ?p false (data_kwarg ?d) w] =>
        destruct (public_get_call_params self p (data_kwarg d) d w Hheaders eq_refl
                    eq_refl (request_data_kwarg self d Hself))
          as (call & Hsent & Hm & Huri & Hh & Hdata & Hparams & Hclock)
    end;
    exists call;
    (split; [exact Hsent |]); (split; [exact Hm |]); (split; [exact Hh |]);
    (split; [exact Hclock |]);
    (split; [exact Huri |]); (split; [exact Hparams | exact Hdata]).
Qed.

Lemma get_ticker_paths_witness :
  no_data_override demo_client
  /\ no_headers_override demo_client
  /\ exists call : http_call,
       sent (snd (get_ticker demo_client (PStr "KCS-BTC") demo_world)) = [call]
       /\ hc_uri call = "https://openapi-v2.kucoin.com/api/v1/market/orderbook/level1"
       /\ hc_params call = Some [("symbol", PStr "KCS-BTC")].
Proof.
  assert (Hself : no_data_override demo_client) by exact I.
  assert (Hh : no_headers_override demo_client) by exact I.
  split; [exact Hself |]. split; [exact Hh |].
  destruct (get_ticker_paths demo_client (PStr "KCS-BTC") demo_world Hself Hh)
    as (call & Hsent & _ & _ & _ & Huri & Hparams & _).
  exists call. repeat split; assumption.
Defined.

(** X18: [get_fiat_prices] sends [base] and, under the key currencies, the
    symbols, each whenever it is not [None]: zero and the empty text are
    sent, unlike the filters of the other listings. *)
Theorem get_fiat_prices_params (self : Client) (base symbol : pyval) (w : World)
    (Hself : no_data_override self) (Hheaders : no_headers_override self) :
  let run := get_fiat_prices self base symbol w in
  let data := not_None_items [("base", base); ("currencies", symbol)] in
  exists call : http_call,
    sent (snd run) = (sent w ++ [call])%list
    /\ hc_method call = "get"
    /\ hc_uri call = API_URL self ++ "/api/v1/prices"
    /\ hc_headers call = []
    /\ hc_data call = (if nonempty data then None else Some (Form []))
    /\ (data <> [] -> hc_params call = Some data)
    /\ clock_reads (snd run) = clock_reads w.
Proof.
  cbv zeta. unfold get_fiat_prices, _get.
  assembled_data (not_None_items [("base", base); ("currencies", symbol)]).
  apply (public_get_call self "prices"); [exact Hheaders | reflexivity |].
  now apply request_data_kwarg.
Qed.

Lemma get_fiat_prices_params_witness :
  no_data_override demo_client
  /\ no_headers_override demo_client
  /\ exists call : http_call,
       sent (snd (get_fiat_prices demo_client PNone (PStr EmptyString) demo_world)) = [call]
       /\ hc_params call = Some [("currencies", PStr EmptyString)].
Proof.
  assert (Hself : no_data_override demo_client) by exact I.
  assert (Hh : no_headers_override demo_client) by exact I.
  split; [exact Hself |]. split; [exact Hh |].
  destruct (get_fiat_prices_params demo_client PNone (PStr EmptyString) demo_world Hself Hh)
    as (call & Hsent & _ & _ & _ & _ & Hparams & _).
  exists call. split; [exact Hsent |].
  apply Hparams. discriminate.
Defined.

Lemma signature_no_data (self : Client) (nonce : Z) (method path : string) :
  _generate_signature self nonce method path []
  = Base64.b64encode
      (Hmac.sha256_digest (encode_utf8 (API_SECRET self))
                          (encode_utf8 (str_of_Z nonce ++ upper method ++ path))).
Proof.
  unfold _generate_signature.
  now rewrite (proj2 (empty_data_signs_empty_body_aux nonce method path)).
Qed.

(** A signed call without data. *)
Lemma signed_no_data_call (self : Client) (method path : string) (w : World) :
  no_data_override self ->
  let run := _request self method path true no_kwargs w in
  let nonce := Z.quot (clock w (clock_reads w)) 1000 in
  exists call : http_call,
    sent (snd run) = (sent w ++ [call])%list
    /\ hc_method call = method
    /\ hc_uri call = API_URL self ++ "/api/v1/" ++ path
    /\ hc_data call = Some (Form [])
    /\ dict_get "KC-API-SIGN" (hc_headers call)
       = Some (HBytes
                 (Base64.b64encode
                    (Hmac.sha256_digest
                       (encode_utf8 (API_SECRET self))
                       (encode_utf8 (str_of_Z nonce ++ upper method
                                       ++ "/api/v1/" ++ path)))))
    /\ clock_reads (snd run) = S (clock_reads w).
Proof.
  intros Hself. cbv zeta.
  destruct (request_call self method path true no_kwargs w) as [Hw _].
  cbv zeta in Hw. rewrite Hw, (request_data_none self Hself).
  eexists. split; [reflexivity |].
  cbn [hc_method hc_uri hc_data hc_headers clock_reads].
  split; [reflexivity |]. split; [reflexivity |].
  split; [destruct (String.eqb method "get"); reflexivity |].
  split; [| reflexivity].
  rewrite sign_headers_sign. now rewrite signature_no_data.
Qed.

(** X19: the endpoints that act on one order, withdrawal, lend order or
    account put the identifier into the path as [str] renders it, with no
    escaping, send no data, and sign timestamp, upper-cased method and that
    path with nothing after it. *)
Theorem identifier_endpoints (self : Client) (id : pyval) (w : World)
    (Hself : no_data_override self) :
  let nonce := Z.quot (clock w (clock_reads w)) 1000 in
  let sends (run : outcome json * World) (method path : string) :=
    exists call : http_call,
      sent (snd run) = (sent w ++ [call])%list
      /\ hc_method call = method
      /\ hc_uri call = API_URL self ++ "/api/v1/" ++ path
      /\ hc_data call = Some (Form [])
      /\ dict_get "KC-API-SIGN" (hc_headers call)
         = Some (HBytes
                   (Base64.b64encode
                      (Hmac.sha256_digest
                         (encode_utf8 (API_SECRET self))
                         (encode_utf8 (str_of_Z nonce ++ upper method
                                         ++ "/api/v1/" ++ path)))))
      /\ clock_reads (snd run) = S (clock_reads w) in
  sends (cancel_order self id w) "delete" ("orders/" ++ py_str id)
  /\ sends (cancel_withdrawal self id w) "delete" ("withdrawals/" ++ py_str id)
  /\ sends (cancel_lend_order self id w) "delete" ("margin/lend/" ++ py_str id)
  /\ sends (get_order self id w) "get" ("orders/" ++ py_str id)
  /\ sends (get_account self id w) "get" ("accounts/" ++ py_str id).
Proof.
  cbv zeta.
  unfold cancel_order, cancel_withdrawal, cancel_lend_order, get_order, get_account,
    _delete, _get.
  repeat split; apply signed_no_data_call; exact Hself.
Qed.

Lemma identifier_endpoints_witness :
  no_data_override demo_client
  /\ exists call : http_call,
       sent (snd (cancel_order demo_client (PStr "5bd6e9286d99522a52e458de")
                    demo_world))
       = [call]
       /\ hc_method call = "delete"
       /\ hc_uri call
          = "https://openapi-v2.kucoin.com/api/v1/orders/5bd6e9286d99522a52e458de".
Proof.
  assert (Hself : no_data_override demo_client) by exact I.
  split; [exact Hself |].
  destruct (proj1 (identifier_endpoints demo_client (PStr "5bd6e9286d99522a52e458de")
                     demo_world Hself))
    as (call & Hsent & Hm & Huri & _).
  exists call. repeat split; assumption.
Defined.

(** X20: [get_ws_endpoint] posts without data to bullet-public, unsigned (no
    header added, clock not read), unless [private] is true for Python's
    [if]; then it posts to bullet-private and the call is signed. *)
Theorem get_ws_endpoint_signing (self : Client) (private : pyval) (w : World)
    (Hself : no_data_override self) (Hheaders : no_headers_override self) :
  let run := get_ws_endpoint self private w in
  let nonce := Z.quot (clock w (clock_reads w)) 1000 in
  exists call : http_call,
    sent (snd run) = (sent w ++ [call])%list
    /\ hc_method call = "post"
    /\ hc_data call = Some (Form [])
    /\ if truthy private
       then hc_uri call = API_URL self ++ "/api/v1/bullet-private"
            /\ dict_get "KC-API-SIGN" (hc_headers call)
               = Some (HBytes
                         (Base64.b64encode
                            (Hmac.sha256_digest
                               (encode_utf8 (API_SECRET self))
                               (encode_utf8 (str_of_Z nonce
                                               ++ "POST/api/v1/bullet-private")))))
            /\ clock_reads (snd run) = S (clock_reads w)
       else hc_uri call = API_URL self ++ "/api/v1/bullet-public"
            /\ hc_headers call = []
            /\ clock_reads (snd run) = clock_reads w.
Proof.
  cbv zeta. unfold get_ws_endpoint, _post.
  destruct (truthy private).
  - destruct (signed_no_data_call self "post" "bullet-private" w Hself)
      as (call & Hsent & Hm & Huri & Hdata & Hsig & Hclock).
    exists call. repeat split; assumption.
  - destruct (request_call self "post" "bullet-public" false no_kwargs w) as [Hw _].
    cbv zeta in Hw. rewrite Hw, (request_data_none self Hself),
      (merged_headers_none self no_kwargs Hheaders eq_refl).
    eexists. split; [reflexivity |]. repeat split.
Qed.

Lemma get_ws_endpoint_signing_witness :
  no_data_override demo_client
  /\ no_headers_override demo_client
  /\ exists call : http_call,
       sent (snd (get_ws_endpoint demo_client (PBool false) demo_world)) = [call]
       /\ hc_uri call = "https://openapi-v2.kucoin.com/api/v1/bullet-public"
       /\ hc_headers call = [].
Proof.
  assert (Hself : no_data_override demo_client) by exact I.
  assert (Hh : no_headers_override demo_client) by exact I.
  split; [exact Hself |]. split; [exact Hh |].
  destruct (get_ws_endpoint_signing demo_client (PBool false) demo_world Hself Hh)
    as (call & Hsent & _ & _ & Huri & Hheaders & _).
  exists call. repeat split; assumption.
Defined.

(** X21: the market-data endpoints are unsigned GETs: each adds no header and
    does not read the clock.  The currency detail puts its argument into the
    path, as [str] renders it, and passes an empty data mapping, like the
    endpoints without argument; the 24h statistics, the three order books and
    the trade histories send their argument as the one query parameter
    symbol, and the lending market sends it as currency, whatever its
    value. *)
Theorem public_endpoints_unsigned (self : Client) (arg : pyval) (w : World)
    (Hself : no_data_override self) (Hheaders : no_headers_override self) :
  let sends (run : outcome json * World) (path : string) (data : dict) :=
    exists call : http_call,
      sent (snd run) = (sent w ++ [call])%list
      /\ hc_method call = "get"
      /\ hc_uri call = API_URL self ++ "/api/v1/" ++ path
      /\ hc_headers call = []
      /\ hc_data call = (if nonempty data then None else Some (Form []))
      /\ (data <> [] -> hc_params call = Some data)
      /\ clock_reads (snd run) = clock_reads w in
  sends (get_timestamp self w) "timestamp" []
  /\ sends (get_currencies self w) "currencies" []
  /\ sends (get_currency self arg w) ("currencies/" ++ py_str arg) []
  /\ sends (get_symbols self w) "symbols" []
  /\ sends (get_markets self w) "markets" []
  /\ sends (get_24hr_stats self arg w) "market/stats" [("symbol", arg)]
  /\ sends (get_order_book self arg w) "market/orderbook/level2_100" [("symbol", arg)]
  /\ sends (get_full_order_book self arg w) "market/orderbook/level2" [("symbol", arg)]
  /\ sends (get_full_order_book_level3 self arg w) "market/orderbook/level3"
       [("symbol", arg)]
  /\ sends (get_trade_histories self arg w) "market/histories" [("symbol", arg)]
  /\ sends (get_lending_orderbook self arg w) "margin/market" [("currency", arg)].
Proof.
  cbv zeta.
  unfold get_timestamp, get_currencies, get_currency, get_symbols, get_markets,
    get_24hr_stats, get_order_book, get_full_order_book, get_full_order_book_level3,
    get_trade_histories, get_lending_orderbook, _get.
  repeat split;
    first
      [ apply public_get_call;
        [exact Hheaders | reflexivity | now apply request_data_none]
      | apply public_get_call;
        [exact Hheaders | reflexivity | now apply request_data_kwarg] ].
Qed.

Lemma public_endpoints_unsigned_witness :
  no_data_override demo_client
  /\ no_headers_override demo_client
  /\ exists call : http_call,
       sent (snd (get_24hr_stats demo_client (PStr "ETH-BTC") demo_world)) = [call]
       /\ hc_headers call = []
       /\ hc_params call = Some [("symbol", PStr "ETH-BTC")].
Proof.
  assert (Hself : no_data_override demo_client) by exact I.
  assert (Hh : no_headers_override demo_client) by exact I.
  split; [exact Hself |]. split; [exact Hh |].
  destruct (public_endpoints_unsigned demo_client (PStr "ETH-BTC") demo_world Hself Hh)
    as (_ & _ & _ & _ & _ & (call & Hsent & _ & _ & Hheaders & _ & Hparams & _) & _).
  exists call. split; [exact Hsent |]. split; [exact Hheaders |].
  apply Hparams. discriminate.
Defined.

(** X22: the account and lending endpoints with fixed fields are signed: the
    POSTs send the compact JSON of their fields in the order written
    (type, currency; currency; currency, size, dailyIntRate, term), the GETs
    send currency as query parameter, and each signature covers those same
    fields. *)
Theorem private_fixed_endpoints (self : Client)
    (a b c d : pyval) (w : World) (Hself : no_data_override self) :
  let nonce := Z.quot (clock w (clock_reads w)) 1000 in
  let posts (run : outcome json * World) (path : string) (data : dict) :=
    exists call : http_call,
      sent (snd run) = (sent w ++ [call])%list
      /\ hc_method call = "post"
      /\ hc_uri call = API_URL self ++ "/api/v1/" ++ path
      /\ hc_data call = Some (Body (compact_json_dict data))
      /\ dict_get "KC-API-SIGN" (hc_headers call)
         = Some (HBytes (_generate_signature self nonce "post" ("/api/v1/" ++ path)
                           data)) in
  let gets (run : outcome json * World) (path : string) (data : dict) :=
    exists call : http_call,
      sent (snd run) = (sent w ++ [call])%list
      /\ hc_method call = "get"
      /\ hc_uri call = API_URL self ++ "/api/v1/" ++ path
      /\ hc_data call = None
      /\ hc_params call = Some data
      /\ dict_get "KC-API-SIGN" (hc_headers call)
         = Some (HBytes (_generate_signature self nonce "get" ("/api/v1/" ++ path)
                           data)) in
  posts (create_account self a b w) "accounts" [("type", a); ("currency", b)]
  /\ posts (create_deposit_address self a w) "deposit-addresses" [("currency", a)]
  /\ posts (create_lending_order self a b c d w) "margin/lend"
       [("currency", a); ("size", b); ("dailyIntRate", c); ("term", d)]
  /\ gets (get_deposit_address self a w) "deposit-addresses" [("currency", a)]
  /\ gets (get_withdrawal_quotas self a w) "withdrawals/quotas" [("currency", a)]
  /\ gets (get_lending_orders self a w) "margin/lend/active" [("currency", a)].
Proof.
  cbv zeta.
  unfold create_account, create_deposit_address, create_lending_order,
    get_deposit_address, get_withdrawal_quotas, get_lending_orders, _post, _get.
  repeat match goal with |- _ /\ _ => split end;
    match goal with
    | |- context [_request self "post" ?p true (data_kwarg ?d) w] =>
        destruct (signed_body_call self "post" p (data_kwarg d) d w eq_refl
                    (request_data_kwarg self d Hself))
          as (call & Hsent & Hm & Huri & Hdata & Hsig);
        exists call;
        (split; [exact Hsent |]); (split; [exact Hm |]); (split; [exact Huri |]);
        (split; [exact Hdata | exact Hsig])
    | |- context [_request self "get" ?p true (data_kwarg ?d) w] =>
        destruct (signed_get_call self p (data_kwarg d) d w
                    (request_data_kwarg self d Hself))
          as (call & Hsent & Hm & Huri & Hdata & Hparams & Hsig);
        exists call;
        (split; [exact Hsent |]); (split; [exact Hm |]); (split; [exact Huri |]);
        (split; [exact Hdata |]);
        (split; [apply Hparams; discriminate | exact Hsig])
    end.
Qed.

Lemma private_fixed_endpoints_witness :
  no_data_override demo_client
  /\ exists call : http_call,
       sent (snd (create_account demo_client (PStr "trade") (PStr "BTC") demo_world))
       = [call]
       /\ hc_data call
          = Some (Body (compact_json_dict
                          [("type", PStr "trade"); ("currency", PStr "BTC")])).
Proof.
  assert (Hself : no_data_override demo_client) by exact I.
  split; [exact Hself |].
  destruct (proj1 (private_fixed_endpoints demo_client (PStr "trade") (PStr "BTC")
                     PNone PNone demo_world Hself))
    as (call & Hsent & _ & _ & Hdata & _).
  exists call. split; [exact Hsent | exact Hdata].
Defined.

(** ** The signer *)

Lemma append_assoc (a b c : string) : (a ++ b) ++ c = a ++ b ++ c.
Proof.
  induction a as [| x a IH]; simpl.
  - reflexivity.
  - now rewrite IH.
Qed.

(** X23: the query text that is signed is not escaped: a value that holds an
    ampersand and an equals sign reads as further parameters, so two
    different mappings can have the same signed text and the same
    signature. *)
Theorem signed_query_not_escaped (self : Client) (nonce : Z)
    (path k1 k2 v1 v2 : string) (Hkeys : k1 <> k2) :
  let one := [(k1, PStr (v1 ++ "&" ++ k2 ++ "=" ++ v2))] in
  let two := [(k1, PStr v1); (k2, PStr v2)] in
  one <> two
  /\ _get_params_for_sig one = _get_params_for_sig two
  /\ _generate_signature self nonce "get" path one
     = _generate_signature self nonce "get" path two.
Proof.
  cbv zeta.
  assert (Hq : _get_params_for_sig [(k1, PStr (v1 ++ "&" ++ k2 ++ "=" ++ v2))]
               = _get_params_for_sig [(k1, PStr v1); (k2, PStr v2)]).
  { unfold _get_params_for_sig, dict_item, dict_keys. simpl.
    rewrite String.eqb_refl.
    destruct (String.eqb_spec k1 k2) as [E | _]; [contradiction |].
    simpl. rewrite String.eqb_refl. simpl. now rewrite append_assoc. }
  split; [discriminate |]. split; [exact Hq |].
  assert (Hloc : forall kv d,
             sig_locals "get" path (kv :: d)
             = (path ++ "?" ++ _get_params_for_sig (kv :: d), EmptyString))
    by reflexivity.
  unfold _generate_signature, sig_str. now rewrite !Hloc, Hq.
Qed.

Lemma signed_query_not_escaped_witness :
  "side" <> "symbol"
  /\ _get_params_for_sig [("side", PStr "buy&symbol=KCS-BTC")]
     = _get_params_for_sig [("side", PStr "buy"); ("symbol", PStr "KCS-BTC")].
Proof.
  assert (H : "side" <> "symbol") by discriminate.
  split; [exact H |].
  exact (proj1 (proj2 (signed_query_not_escaped demo_client 0 "/api/v1/orders"
                         "side" "symbol" "buy" "KCS-BTC" H))).
Defined.

Lemma sha256_digest_length (msg : bytes) : List.length (Sha256.digest msg) = 32%nat.
Proof.
  unfold Sha256.digest.
  destruct (fold_left Sha256.compress _ Sha256.init)
    as [[[[[[[a b] c] d] e] f] g] h].
  reflexivity.
Qed.

Lemma b64encode_32 (l : bytes) :
  List.length l = 32%nat ->
  List.length (Base64.b64encode l) = 44%nat
  /\ last (Base64.b64encode l) x00 = Base64.pad_char.
Proof.
  do 32 (destruct l as [| ? l]; [discriminate |]).
  destruct l as [| ? l]; [| discriminate].
  intros _. split; reflexivity.
Qed.

(** X24: whatever is signed, the signature is 44 bytes of base64, the last of
    them the padding character: the 32 bytes of an HMAC-SHA256 digest,
    encoded. *)
Theorem signature_length (self : Client) (nonce : Z) (method path : string)
    (data : dict) :
  List.length (_generate_signature self nonce method path data) = 44%nat
  /\ last (_generate_signature self nonce method path data) x00 = Base64.pad_char.
Proof.
  unfold _generate_signature. apply b64encode_32.
  unfold Hmac.sha256_digest. apply sha256_digest_length.
Qed.

(** ** Orders and transfers: the whole body *)

(** A signed POST of data that is not empty, with the world it leaves. *)
Lemma signed_post_world (self : Client) (path : string) (data : dict) (w : World) :
  no_data_override self ->
  nonempty data = true ->
  let run := _request self "post" path true (data_kwarg data) w in
  let nonce := Z.quot (clock w (clock_reads w)) 1000 in
  exists call : http_call,
    sent (snd run) = (sent w ++ [call])%list
    /\ uuid_supply (snd run) = uuid_supply w
    /\ uuid_draws (snd run) = uuid_draws w
    /\ hc_method call = "post"
    /\ hc_uri call = API_URL self ++ "/api/v1/" ++ path
    /\ hc_data call = Some (Body (compact_json_dict data))
    /\ dict_get "KC-API-SIGN" (hc_headers call)
       = Some (HBytes (_generate_signature self nonce "post" ("/api/v1/" ++ path)
                         data)).
Proof.
  intros Hself Hne. cbv zeta.
  destruct (request_call self "post" path true (data_kwarg data) w) as [Hw _].
  cbv zeta in Hw. rewrite Hw, (request_data_kwarg self data Hself), Hne.
  eexists. split; [reflexivity |].
  repeat split. apply sign_headers_sign.
Qed.

(** Proves that the data assembled by an endpoint is the list the statement
    gives, using the tests already decided. *)
Ltac same_data :=
  unfold truthy_items, OrderSpec.client_oid_of, OrderSpec.given; simpl;
  repeat match goal with
         | H : truthy ?v = _ |- context [truthy ?v] => rewrite H
         end;
  simpl;
  repeat match goal with
         | |- context [truthy ?v] => destruct (truthy v)
         end;
  reflexivity.

(** Brings in [signed_post_world] for the order that the goal posts, after
    showing that its data is the one under [compact_json_dict] in the
    goal. *)
Ltac posted_body Hself call :=
  match goal with
  | |- context [_request ?c "post" ?p true (data_kwarg ?d) ?w'] =>
      match goal with
      | |- context [compact_json_dict ?D] =>
          let Hd := fresh "Hd" in
          let Hsent := fresh "Hsent" in
          let Hsupply := fresh "Hsupply" in
          let Hdraws := fresh "Hdraws" in
          let Hm := fresh "Hm" in
          let Huri := fresh "Huri" in
          let Hdata := fresh "Hdata" in
          let Hsig := fresh "Hsig" in
          assert (Hd : d = D) by same_data;
          rewrite Hd;
          destruct (signed_post_world c p D w' Hself eq_refl)
            as (call & Hsent & Hsupply & Hdraws & Hm & Huri & Hdata & Hsig);
          cbn [sent uuid_supply uuid_draws clock clock_reads] in Hsent, Hsupply, Hdraws, Hsig
      end
  end.

(** One market order that passes validation: the call, its body, and the
    identifiers left in the supply. *)
Lemma market_order_run (self : Client)
    (symbol side size funds client_oid remark stp : pyval) (w : World) :
  no_data_override self ->
  truthy size <> truthy funds ->
  let run := create_market_order self symbol side size funds client_oid remark stp w in
  let data :=
    ([("side", side); ("symbol", symbol); ("type", PStr "market")]
       ++ truthy_items [("size", size); ("funds", funds)]
       ++ [("clientOid", OrderSpec.client_oid_of client_oid w)]
       ++ truthy_items [("remark", remark); ("stp", stp)])%list in
  let nonce := Z.quot (clock w (clock_reads w)) 1000 in
  exists call : http_call,
    sent (snd run) = (sent w ++ [call])%list
    /\ uuid_supply (snd run) = uuid_supply w
    /\ uuid_draws (snd run)
       = (if truthy client_oid then uuid_draws w else S (uuid_draws w))
    /\ hc_method call = "post"
    /\ hc_uri call = API_URL self ++ "/api/v1/orders"
    /\ hc_data call = Some (Body (compact_json_dict data))
    /\ dict_get "KC-API-SIGN" (hc_headers call)
       = Some (HBytes (_generate_signature self nonce "post" "/api/v1/orders" data)).
Proof.
  intros Hself Hone. cbv zeta. unfold create_market_order.
  destruct (truthy size) eqn:Hs, (truthy funds) eqn:Hf;
    try (exfalso; apply Hone; reflexivity);
    destruct (truthy client_oid) eqn:Hc; to_request;
    posted_body Hself call; exists call;
    (split; [exact Hsent |]); (split; [exact Hsupply |]); (split; [exact Hdraws |]);
    (split; [exact Hm |]); (split; [exact Huri |]); (split; [exact Hdata | exact Hsig]).
Qed.

(** X25: the body of a market order that passes validation is the compact
    JSON of side, symbol, type market, then size or funds (the one that is
    given), then clientOid, then remark and stp when they are true for
    Python's [if], in that order; the signature covers the same mapping. *)
Theorem create_market_order_body (self : Client)
    (symbol side size funds client_oid remark stp : pyval) (w : World)
    (Hself : no_data_override self) (Hone : truthy size <> truthy funds) :
  let run := create_market_order self symbol side size funds client_oid remark stp w in
  let data :=
    ([("side", side); ("symbol", symbol); ("type", PStr "market")]
       ++ truthy_items [("size", size); ("funds", funds)]
       ++ [("clientOid", OrderSpec.client_oid_of client_oid w)]
       ++ truthy_items [("remark", remark); ("stp", stp)])%list in
  let nonce := Z.quot (clock w (clock_reads w)) 1000 in
  exists call : http_call,
    sent (snd run) = (sent w ++ [call])%list
    /\ hc_method call = "post"
    /\ hc_uri call = API_URL self ++ "/api/v1/orders"
    /\ hc_data call = Some (Body (compact_json_dict data))
    /\ dict_get "KC-API-SIGN" (hc_headers call)
       = Some (HBytes (_generate_signature self nonce "post" "/api/v1/orders" data)).
Proof.
  cbv zeta.
  destruct (market_order_run self symbol side size funds client_oid remark stp w
              Hself Hone)
    as (call & Hsent & _ & _ & Hm & Huri & Hdata & Hsig).
  exists call. repeat split; assumption.
Qed.

Lemma create_market_order_body_witness :
  no_data_override demo_client
  /\ truthy PNone <> truthy (PStr "100")
  /\ exists call : http_call,
       sent (snd (create_market_order demo_client (PStr "KCS-BTC") (PStr "sell") PNone
                    (PStr "100") (PStr "mine") PNone (PStr "CO") demo_world))
       = [call]
       /\ hc_data call
          = Some (Body (compact_json_dict
                          [("side", PStr "sell"); ("symbol", PStr "KCS-BTC");
                           ("type", PStr "market"); ("funds", PStr "100");
                           ("clientOid", PStr "mine"); ("stp", PStr "CO")])).
Proof.
  assert (Hself : no_data_override demo_client) by exact I.
  assert (Hone : truthy PNone <> truthy (PStr "100")) by discriminate.
  split; [exact Hself |]. split; [exact Hone |].
  destruct (create_market_order_body demo_client (PStr "KCS-BTC") (PStr "sell") PNone
              (PStr "100") (PStr "mine") PNone (PStr "CO") demo_world Hself Hone)
    as (call & Hsent & _ & _ & Hdata & _).
  exists call. split; [exact Hsent | exact Hdata].
Defined.

(** X26: placing the same market order twice without a client identifier
    sends two calls whose clientOid are the next two identifiers of the
    supply, whatever the first call came to: the second order is a new order,
    not a repetition of the first. *)
Theorem repeated_market_order_identifiers (self : Client)
    (symbol side size funds client_oid remark stp : pyval) (w : World)
    (Hself : no_data_override self) (Hone : truthy size <> truthy funds)
    (Hauto : truthy client_oid = false) :
  let order := create_market_order self symbol side size funds client_oid remark stp in
  let n := uuid_draws w in
  exists (data1 data2 : dict) (call1 call2 : http_call),
    sent (snd (order (snd (order w)))) = (sent w ++ [call1; call2])%list
    /\ hc_data call1 = Some (Body (compact_json_dict data1))
    /\ hc_data call2 = Some (Body (compact_json_dict data2))
    /\ dict_get "clientOid" data1 = Some (PStr (uuid_supply w n))
    /\ dict_get "clientOid" data2 = Some (PStr (uuid_supply w (S n))).
Proof.
  cbv zeta.
  destruct (market_order_run self symbol side size funds client_oid remark stp w
              Hself Hone)
    as (call1 & Hsent1 & Hsupply1 & Hdraws1 & _ & _ & Hdata1 & _).
  set (w1 := snd (create_market_order self symbol side size funds client_oid remark
                    stp w)) in *.
  destruct (market_order_run self symbol side size funds client_oid remark stp w1
              Hself Hone)
    as (call2 & Hsent2 & _ & _ & _ & _ & Hdata2 & _).
  rewrite Hauto in Hdraws1.
  unfold OrderSpec.client_oid_of, OrderSpec.given in Hdata1, Hdata2.
  rewrite Hauto in Hdata1, Hdata2. rewrite Hsupply1, Hdraws1 in Hdata2.
  eexists; eexists; exists call1, call2.
  split; [rewrite Hsent2, Hsent1, <- app_assoc; reflexivity |].
  split; [exact Hdata1 |]. split; [exact Hdata2 |].
  split; unfold truthy_items; simpl;
    repeat match goal with
           | |- context [truthy ?v] => destruct (truthy v)
           end; reflexivity.
Qed.

Lemma repeated_market_order_identifiers_witness :
  no_data_override demo_client
  /\ truthy (PInt 3) <> truthy PNone
  /\ truthy PNone = false
  /\ exists (data1 data2 : dict) (call1 call2 : http_call),
       sent (snd (create_market_order demo_client (PStr "KCS-BTC") (PStr "buy")
                    (PInt 3) PNone PNone PNone PNone
                    (snd (create_market_order demo_client (PStr "KCS-BTC")
                            (PStr "buy") (PInt 3) PNone PNone PNone PNone
                            demo_world))))
       = [call1; call2]
       /\ hc_data call1 = Some (Body (compact_json_dict data1))
       /\ hc_data call2 = Some (Body (compact_json_dict data2))
       /\ dict_get "clientOid" data1 = Some (PStr "uuid0")
       /\ dict_get "clientOid" data2 = Some (PStr "uuid1").
Proof.
  assert (Hself : no_data_override demo_client) by exact I.
  assert (Hone : truthy (PInt 3) <> truthy PNone) by discriminate.
  assert (Hauto : truthy PNone = false) by reflexivity.
  split; [exact Hself |]. split; [exact Hone |]. split; [exact Hauto |].
  exact (repeated_market_order_identifiers demo_client (PStr "KCS-BTC") (PStr "buy")
           (PInt 3) PNone PNone PNone PNone demo_world Hself Hone Hauto).
Defined.

(** X27: the body of a limit order that passes validation is the compact
    JSON of symbol, side, type limit, price, size, clientOid, then remark,
    stp, timeInForce, cancelAfter, postOnly when they are true for Python's
    [if], then stop with stopPrice when stop is, then hidden when it is, then
    iceberg with visible_size when iceberg is.  A visible size without
    iceberg raises nothing and is not sent. *)
Theorem create_limit_order_body (self : Client)
    (symbol side price size client_oid remark time_in_force stop stop_price stp
     cancel_after post_only hidden iceberg visible_size : pyval) (w : World)
    (Hself : no_data_override self)
    (Hvalid : OrderSpec.limit_order_invalid time_in_force stop stop_price
                cancel_after hidden iceberg visible_size = false) :
  let run :=
    create_limit_order self symbol side price size client_oid remark time_in_force
      stop stop_price stp cancel_after post_only hidden iceberg visible_size w in
  let data :=
    ([("symbol", symbol); ("side", side); ("type", PStr "limit"); ("price", price);
      ("size", size); ("clientOid", OrderSpec.client_oid_of client_oid w)]
       ++ truthy_items
            [("remark", remark); ("stp", stp); ("timeInForce", time_in_force);
             ("cancelAfter", cancel_after); ("postOnly", post_only)]
       ++ (if truthy stop then [("stop", stop); ("stopPrice", stop_price)] else [])
       ++ truthy_items [("hidden", hidden)]
       ++ (if truthy iceberg
           then [("iceberg", iceberg); ("visible_size", visible_size)]
           else []))%list in
  let nonce := Z.quot (clock w (clock_reads w)) 1000 in
  exists call : http_call,
    sent (snd run) = (sent w ++ [call])%list
    /\ hc_method call = "post"
    /\ hc_uri call = API_URL self ++ "/api/v1/orders"
    /\ hc_data call = Some (Body (compact_json_dict data))
    /\ dict_get "KC-API-SIGN" (hc_headers call)
       = Some (HBytes (_generate_signature self nonce "post" "/api/v1/orders" data)).
Proof.
  cbv zeta.
  unfold OrderSpec.limit_order_invalid, OrderSpec.given in Hvalid.
  repeat (apply Bool.orb_false_elim in Hvalid;
          let H := fresh "Hcase" in destruct Hvalid as [Hvalid H]).
  unfold create_limit_order, TIMEINFORCE_GOOD_TILL_TIME.
  rewrite Hvalid, Hcase, Hcase0, Hcase1, Hcase2.
  clear Hvalid Hcase Hcase0 Hcase1 Hcase2.
  destruct (truthy client_oid) eqn:Hc; to_request;
    posted_body Hself call; exists call;
    (split; [exact Hsent |]); (split; [exact Hm |]); (split; [exact Huri |]);
    (split; [exact Hdata | exact Hsig]).
Qed.

Lemma create_limit_order_body_witness :
  no_data_override demo_client
  /\ exists call : http_call,
       sent (snd (create_limit_order demo_client (PStr "KCS-BTC") (PStr "buy")
                    (PStr "0.1") (PInt 3) PNone PNone PNone PNone PNone PNone PNone
                    PNone PNone PNone (PInt 1) demo_world))
       = [call]
       /\ hc_data call
          = Some (Body (compact_json_dict
                          [("symbol", PStr "KCS-BTC"); ("side", PStr "buy");
                           ("type", PStr "limit"); ("price", PStr "0.1");
                           ("size", PInt 3); ("clientOid", PStr "uuid0")])).
Proof.
  assert (Hself : no_data_override demo_client) by exact I.
  split; [exact Hself |].
  destruct (create_limit_order_body demo_client (PStr "KCS-BTC") (PStr "buy")
              (PStr "0.1") (PInt 3) PNone PNone PNone PNone PNone PNone PNone PNone
              PNone PNone (PInt 1) demo_world Hself eq_refl)
    as (call & Hsent & _ & _ & Hdata & _).
  exists call. split; [exact Hsent | exact Hdata].
Defined.

(** X28: [create_inner_transfer] posts the compact JSON of payAccountId,
    recAccountId, amount and clientOid, in that order, the identifier being
    the caller's when it is true for Python's [if] and the next of the supply
    otherwise; it draws an identifier in that second case only. *)
Theorem create_inner_transfer_body (self : Client)
    (from_account_id to_account_id amount order_id : pyval) (w : World)
    (Hself : no_data_override self) :
  let run := create_inner_transfer self from_account_id to_account_id amount order_id w in
  let data :=
    [("payAccountId", from_account_id); ("recAccountId", to_account_id);
     ("amount", amount); ("clientOid", OrderSpec.client_oid_of order_id w)] in
  let nonce := Z.quot (clock w (clock_reads w)) 1000 in
  exists call : http_call,
    sent (snd run) = (sent w ++ [call])%list
    /\ uuid_draws (snd run)
       = (if truthy order_id then uuid_draws w else S (uuid_draws w))
    /\ hc_method call = "post"
    /\ hc_uri call = API_URL self ++ "/api/v1/accounts/inner-transfer"
    /\ hc_data call = Some (Body (compact_json_dict data))
    /\ dict_get "KC-API-SIGN" (hc_headers call)
       = Some (HBytes (_generate_signature self nonce "post"
                         "/api/v1/accounts/inner-transfer" data)).
Proof.
  cbv zeta. unfold create_inner_transfer.
  destruct (truthy order_id) eqn:Hc; to_request;
    posted_body Hself call; exists call;
    (split; [exact Hsent |]); (split; [exact Hdraws |]); (split; [exact Hm |]);
    (split; [exact Huri |]); (split; [exact Hdata | exact Hsig]).
Qed.

Lemma create_inner_transfer_body_witness :
  no_data_override demo_client
  /\ exists call : http_call,
       sent (snd (create_inner_transfer demo_client (PStr "main-id") (PStr "trade-id")
                    (PStr "1.5") PNone demo_world))
       = [call]
       /\ hc_data call
          = Some (Body (compact_json_dict
                          [("payAccountId", PStr "main-id");
                           ("recAccountId", PStr "trade-id"); ("amount", PStr "1.5");
                           ("clientOid", PStr "uuid0")])).
Proof.
  assert (Hself : no_data_override demo_client) by exact I.
  split; [exact Hself |].
  destruct (create_inner_transfer_body demo_client (PStr "main-id") (PStr "trade-id")
              (PStr "1.5") PNone demo_world Hself)
    as (call & Hsent & _ & _ & _ & Hdata & _).
  exists call. split; [exact Hsent | exact Hdata].
Defined.

(** X29: [get_kline_data] is an unsigned GET of market/candles whose query
    parameters are symbol, then type unless the candle type is [None], then
    startAt and endAt, in that order; it adds no header, and reads the clock
    once for each of the two bounds that the caller leaves at [None]. *)
Theorem get_kline_data_call (self : Client) (symbol kline_type start end_ : pyval)
    (w : World) (Hself : no_data_override self) (Hheaders : no_headers_override self) :
  let run := get_kline_data self symbol kline_type start end_ w in
  let now1 := clock w (clock_reads w) in
  let now2 :=
    clock w (if is_not_None start then clock_reads w else S (clock_reads w)) in
  let data :=
    ([("symbol", symbol)]
       ++ not_None_items [("type", kline_type)]
       ++ [("startAt", if is_not_None start then start
                       else PInt (86400 * ((now1 / 1000000) / 86400)));
           ("endAt", if is_not_None end_ then end_
                     else PInt (Z.quot now2 1000000))])%list in
  exists call : http_call,
    sent (snd run) = (sent w ++ [call])%list
    /\ hc_method call = "get"
    /\ hc_uri call = API_URL self ++ "/api/v1/market/candles"
    /\ hc_headers call = []
    /\ hc_data call = None
    /\ hc_params call = Some data
    /\ clock_reads (snd run)
       = (clock_reads w + (if is_not_None start then 0 else 1)
            + (if is_not_None end_ then 0 else 1))%nat.
Proof.
  intros run now1 now2 data. subst run. unfold get_kline_data.
  destruct (is_not_None start) eqn:Hs, (is_not_None end_) eqn:He; to_request;
    match goal with
    | |- context [_request self "get" ?p false (data_kwarg ?d) ?w'] =>
        assert (Hd : d = data)
          by (subst data now1 now2; unfold not_None_items; simpl;
              rewrite ?Hs, ?He; destruct (is_not_None kline_type); reflexivity);
        rewrite Hd;
        destruct (public_get_call self p (data_kwarg data) data w' Hheaders eq_refl
                    (request_data_kwarg self data Hself))
          as (call & Hsent & Hm & Huri & Hh & Hdata & Hparams & Hclock)
    end;
    cbn [sent clock_reads] in Hsent, Hclock;
    exists call;
    (split; [exact Hsent |]); (split; [exact Hm |]); (split; [exact Huri |]);
    (split; [exact Hh |]);
    (split; [exact Hdata |]);
    (split; [apply Hparams; subst data; discriminate |]);
    refine (eq_trans Hclock _); lia.
Qed.

Lemma get_kline_data_call_witness :
  no_data_override demo_client
  /\ no_headers_override demo_client
  /\ exists call : http_call,
       sent (snd (get_kline_data demo_client (PStr "KCS-BTC") PNone (PInt 0) PNone
                    demo_world))
       = [call]
       /\ hc_params call
          = Some [("symbol", PStr "KCS-BTC"); ("startAt", PInt 0);
                  ("endAt", PInt 1234567890)].
Proof.
  assert (Hself : no_data_override demo_client) by exact I.
  assert (Hh : no_headers_override demo_client) by exact I.
  split; [exact Hself |]. split; [exact Hh |].
  destruct (get_kline_data_call demo_client (PStr "KCS-BTC") PNone (PInt 0) PNone
              demo_world Hself Hh)
    as (call & Hsent & _ & _ & _ & _ & Hparams & _).
  exists call. split; [exact Hsent | exact Hparams].
Defined.
